(** * Air-quality ETL pipeline: a shallow embedding and its properties

The development follows the Python sources
- [ETL_GLOBAL_ENVIRONMENT/transform.py]   (normalisation, feature engineering),
- [ETL_GLOBAL_ENVIRONMENT/extract.py]     (retrying fetcher, extraction loop),
- [ETL_GLOBAL_ENVIRONMENT/run_pipeline.py] (orchestrator),
- [ETL_GLOBAL_ENVIRONMENT/etl_analysis.py] (analytics entry point),
- [task-2/scripts/load.py]                (batched loader).

A numeric column of the frame is a pandas [float64] column as soon as one
of its cells is null or has a fraction, and an [int64] column when every
cell is an integer.  In a [float64] column the cells are IEEE-754 binary64
values: the missing value is NaN, comparisons with NaN are false and
arithmetic with NaN gives NaN; the Standard Library's [spec_float] gives
these operations without any axiom.  In an [int64] column the cells are
integers of 64 bits, and arithmetic wraps around.

Each stage is a computation on its own world: the services it talks to
answer as an oracle says (the n-th request, the n-th insert, the n-th
reading of the clock), and what the stage prints, sends, sleeps and
writes is appended to a trace. *)

From Stdlib Require Import ZArith Lia Bool List String Ascii.
From Stdlib Require Import Floats.SpecFloat.
From stdpp Require Import base option list strings gmap.

Local Open Scope Z_scope.
Local Open Scope string_scope.

(* ===================================================================== *)
(** ** binary64 numbers *)
(* ===================================================================== *)

Module Float64.

Definition prec : Z := 53.
Definition emax : Z := 1024.

Definition float64 : Type := spec_float.

(** [numpy.nan], the value pandas stores for a missing numeric cell. *)
Definition nan : float64 := S754_nan.

(** An integer literal of the source ([50], [400], [5], ...) promoted to
    float64 when it meets a float operand. *)
Definition of_Z (n : Z) : float64 := binary_normalize prec emax n 0 false.

Definition mul (x y : float64) : float64 := SFmul prec emax x y.
Definition add (x y : float64) : float64 := SFadd prec emax x y.
Definition sub (x y : float64) : float64 := SFsub prec emax x y.

(** Python's [x < y], [x <= y], [x > y] on floats. *)
Definition ltb (x y : float64) : bool := SFltb x y.
Definition leb (x y : float64) : bool := SFleb x y.
Definition gtb (x y : float64) : bool := ltb y x.

(** [pd.isna] on a float scalar. *)
Definition isna (x : float64) : bool :=
  match x with S754_nan => true | _ => false end.

End Float64.

Export Float64.

Declare Scope f64_scope.
Delimit Scope f64_scope with f64.
Infix "*" := mul : f64_scope.
Infix "+" := add : f64_scope.
Infix "-" := sub : f64_scope.
Infix "<?" := ltb : f64_scope.
Infix "<=?" := leb : f64_scope.
Infix ">?" := gtb : f64_scope.
Notation "# n" := (of_Z n) (at level 1, n at level 0, format "# n") : f64_scope.

(* ===================================================================== *)
(** ** transform.py: the two classifiers *)
(* ===================================================================== *)

(** [aqi_category(pm25)], lines 17-29. *)
Definition aqi_category (pm25 : float64) : string :=
  if isna pm25 then "Unknown"
  else if (pm25 <=? #50)%f64 then "Good"
  else if (pm25 <=? #100)%f64 then "Moderate"
  else if (pm25 <=? #200)%f64 then "Unhealthy"
  else if (pm25 <=? #300)%f64 then "Very Unhealthy"
  else "Hazardous".

(** [classify_risk(severity)], lines 35-41.  There is no [isna] test:
    a NaN severity fails both comparisons. *)
Definition classify_risk (severity : float64) : string :=
  if (severity >? #400)%f64 then "High Risk"
  else if (severity >? #200)%f64 then "Moderate Risk"
  else "Low Risk".

(** The two classifiers on a Python [int], as [apply] calls them on the
    elements of an [int64] column: [pd.isna] is false of an [int], and the
    comparisons are those of integers. *)
Definition aqi_category_int (pm25 : Z) : string :=
  if (pm25 <=? 50)%Z then "Good"
  else if (pm25 <=? 100)%Z then "Moderate"
  else if (pm25 <=? 200)%Z then "Unhealthy"
  else if (pm25 <=? 300)%Z then "Very Unhealthy"
  else "Hazardous".

Definition classify_risk_int (severity : Z) : string :=
  if (severity >? 400)%Z then "High Risk"
  else if (severity >? 200)%Z then "Moderate Risk"
  else "Low Risk".

(* ===================================================================== *)
(** ** Computations that act on a world *)
(* ===================================================================== *)

(** The stages print, sleep and talk to services.  A computation takes the
    world as it is and gives its result with the world as it leaves it. *)
Definition State (W A : Type) : Type := W -> A * W.

Definition ret {W A} (a : A) : State W A := fun w => (a, w).

Definition bind {W A B} (m : State W A) (k : A -> State W B) : State W B :=
  fun w => let '(a, w') := m w in k a w'.

Notation "'let*' x ':=' m 'in' k" := (bind m (fun x => k))
  (at level 10, x pattern, m at level 100, k at level 200).
Notation "m ';;' k" := (bind m (fun _ => k))
  (at level 100, k at level 200, right associativity).

(* ===================================================================== *)
(** ** Python values shared by the stages *)
(* ===================================================================== *)

(** A raised Python exception: its class name and its message. *)
Inductive exception : Type :=
| Exception (class message : string).

Definition KeyError (key : string) : exception := Exception "KeyError" key.

(** An element of one of the payload's arrays, as [json.load] returns it:
    [None], an [int] (a number written without fraction or exponent), a
    [float], or a [str]. *)
Inductive json_cell : Type :=
| JNull
| JInteger (n : Z)
| JNumber (x : float64)
| JString (s : string).

(** A cell of a numeric column: an integer, in a column of dtype [int64],
    or a float, in a column of dtype [float64]. *)
Inductive number : Type :=
| Int (n : Z)
| Float (x : float64).

(** [pd.isna] on a cell. *)
Definition isnull (v : number) : bool :=
  match v with
  | Int _ => false
  | Float x => isna x
  end.

(** The cell as a float64, as [astype] and the promotion of an [int64]
    operand give it: the nearest float. *)
Definition as_float (v : number) : float64 :=
  match v with
  | Int n => #n%f64
  | Float x => x
  end.

Definition fits_int64 (n : Z) : bool :=
  ((- 2 ^ 63 <=? n) && (n <? 2 ^ 63))%Z.

(** The integer of 64 bits that int64 arithmetic gives for [n]. *)
Definition wrap64 (n : Z) : Z := (n + 2 ^ 63) mod 2 ^ 64 - 2 ^ 63.

(** [column * k] for an integer literal [k]: the product wraps around in
    an [int64] column; for a [float64] column [k] is taken as a float. *)
Definition times (v : number) (k : Z) : number :=
  match v with
  | Int n => Int (wrap64 (n * k))
  | Float x => Float (x * #k)%f64
  end.

(** [column + column]: [int64] when both are, with wrap-around; the sum of
    the two as floats when one of them is [float64]. *)
Definition plus (v w : number) : number :=
  match v, w with
  | Int a, Int b => Int (wrap64 (a + b))
  | _, _ => Float (as_float v + as_float w)%f64
  end.

Declare Scope number_scope.
Delimit Scope number_scope with number.
Infix "*" := times : number_scope.
Infix "+" := plus : number_scope.

(** Python's [s.split(sep)] for a separator of one character. *)
Fixpoint split (sep : ascii) (s : string) : list string :=
  match s with
  | EmptyString => [EmptyString]
  | String c rest =>
      if Ascii.eqb c sep then EmptyString :: split sep rest
      else match split sep rest with
           | piece :: pieces => String c piece :: pieces
           | [] => [String c EmptyString]
           end
  end.

(** The text before the first occurrence of [sep] (all of [s] when there is
    none): what the pipeline's description calls the city part of a name. *)
Fixpoint before_first (sep : ascii) (s : string) : string :=
  match s with
  | EmptyString => EmptyString
  | String c rest =>
      if Ascii.eqb c sep then EmptyString else String c (before_first sep rest)
  end.

Fixpoint contains (sep : ascii) (s : string) : bool :=
  match s with
  | EmptyString => false
  | String c rest => Ascii.eqb c sep || contains sep rest
  end.

(* ===================================================================== *)
(** ** transform.py: from raw payload files to the staged dataset *)
(* ===================================================================== *)

(** The pandas conversions the module calls with [errors="coerce"].
    Both work on a whole column. *)
Class Pandas : Type := {
  datetime : Type;
  (** What [pd.to_numeric] reads a string cell as: an integer, a float,
      NaN where the string does not parse. *)
  str_to_number : string -> number;
  (** [pd.to_datetime(column, errors="coerce")], line 97: pandas settles
      from the whole column how its cells are read, [None] standing for
      NaT where a cell cannot be read, or raises, as it does for a column
      with mixed UTC offsets.  (The versions of pandas that answer such a
      column with a column of objects raise at the [.dt] of line 126
      instead; nothing is printed or written between the two lines.) *)
  to_datetime : list json_cell -> exception + (json_cell -> option datetime);
  (** [Timestamp.hour]. *)
  dt_hour : datetime -> Z
}.

(** One file of [data/raw]: its base name and the parsed JSON object.  Of
    the object only the entry ["hourly"] is read, an object of arrays. *)
Record raw_file : Type := {
  file_name : string;
  data : gmap string (gmap string (list json_cell))
}.

(** A row of the frame, with the columns the module creates (lines 81-91).
    [T] is the type of the time cell and [N] of the seven numeric cells:
    JSON cells as collected, a timestamp and numbers after conversion. *)
Record row (T N : Type) : Type := {
  city : string;
  time : T;
  pm10 : N;
  pm2_5 : N;
  carbon_monoxide : N;
  nitrogen_dioxide : N;
  sulphur_dioxide : N;
  ozone : N;
  uv_index : N
}.

Arguments city {T N} _.
Arguments time {T N} _.
Arguments pm10 {T N} _.
Arguments pm2_5 {T N} _.
Arguments carbon_monoxide {T N} _.
Arguments nitrogen_dioxide {T N} _.
Arguments sulphur_dioxide {T N} _.
Arguments ozone {T N} _.
Arguments uv_index {T N} _.

(** A row of the staged file: the converted columns and the four
    engineered ones (lines 113-126). *)
Record staged_row `{Pandas} : Type := {
  observed : row (option datetime) number;
  AQI_Category : string;
  severity : number;
  Risk_Level : string;
  hour : option Z
}.

(** What a call of [transform_data] does. *)
Inductive transform_outcome `{Pandas} : Type :=
| NoRawFiles                            (* line 53: message, return, no file *)
| TransformRaised (e : exception)       (* nothing is written *)
| Staged (rows : list staged_row).      (* the frame written to OUTPUT_FILE *)

Section Transform.

Context `{Pandas}.

(** What a cell is read as on its own. *)
Definition scalar (c : json_cell) : number :=
  match c with
  | JNull => Float nan
  | JInteger n => Int n
  | JNumber x => Float x
  | JString s => str_to_number s
  end.

Definition reads_int64 (c : json_cell) : bool :=
  match scalar c with
  | Int n => fits_int64 n
  | Float _ => false
  end.

(** [pd.to_numeric(column, errors="coerce")] on a column of
    [pd.DataFrame(all_rows)], lines 94 and 107, as the cell [c] of the
    column comes out: the column is [int64] when every cell reads as an
    integer of 64 bits, else [float64], and then each cell is taken as a
    float.  (Integers beyond 64 bits, for which pandas has further dtypes,
    are not followed: the model makes the column [float64].) *)
Definition to_numeric (column : list json_cell) (c : json_cell) : number :=
  if forallb reads_int64 column then scalar c
  else Float (as_float (scalar c)).

(** [file.name.split("_")[0]], line 58. *)
Definition city_of (name : string) : string :=
  default EmptyString (split "_" name !! 0%nat).

(** [hourly.get(key, [])]. *)
Definition series (hourly : gmap string (list json_cell)) (key : string)
  : list json_cell :=
  default [] (hourly !! key).

(** Lines 78-92: [zip] stops at the shortest of the eight arrays. *)
Definition zip_rows (c : string) (hourly : gmap string (list json_cell))
  : list (row json_cell json_cell) :=
  (fun '(t, (p10, (p25, (co_v, (no2_v, (so2_v, (oz_v, uv_v))))))) =>
     {| city := c; time := t; pm10 := p10; pm2_5 := p25;
        carbon_monoxide := co_v; nitrogen_dioxide := no2_v;
        sulphur_dioxide := so2_v; ozone := oz_v; uv_index := uv_v |})
  <$> zip (series hourly "time")
     (zip (series hourly "pm10")
     (zip (series hourly "pm2_5")
     (zip (series hourly "carbon_monoxide")
     (zip (series hourly "nitrogen_dioxide")
     (zip (series hourly "sulphur_dioxide")
     (zip (series hourly "ozone")
          (series hourly "uv_index"))))))).

(** The body of the loop over the files, lines 57-92: the rows one file
    adds to [all_rows]; a file without ["hourly"] is skipped. *)
Definition rows_of_file (file : raw_file) : list (row json_cell json_cell) :=
  let city := city_of (file_name file) in
  match data file !! "hourly" with
  | None => []
  | Some hourly => zip_rows city hourly
  end.

(** Lines 97-107, as the row [r] of the frame [df] comes out: each numeric
    cell is converted with its column, the time cell is read the way
    [to_datetime] has settled for the time column. *)
Definition convert (df : list (row json_cell json_cell))
  (read_time : json_cell -> option datetime) (r : row json_cell json_cell)
  : row (option datetime) number :=
  {| city := city r;
     time := read_time (time r);
     pm10 := to_numeric (pm10 <$> df) (pm10 r);
     pm2_5 := to_numeric (pm2_5 <$> df) (pm2_5 r);
     carbon_monoxide := to_numeric (carbon_monoxide <$> df) (carbon_monoxide r);
     nitrogen_dioxide :=
       to_numeric (nitrogen_dioxide <$> df) (nitrogen_dioxide r);
     sulphur_dioxide := to_numeric (sulphur_dioxide <$> df) (sulphur_dioxide r);
     ozone := to_numeric (ozone <$> df) (ozone r);
     uv_index := to_numeric (uv_index <$> df) (uv_index r) |}.

(** The cells of a row in the columns listed in [num_cols], lines 100-104. *)
Definition num_cols {T} (r : row T number) : list number :=
  [pm10 r; pm2_5 r; carbon_monoxide r; nitrogen_dioxide r;
   sulphur_dioxide r; ozone r; uv_index r].

(** [df.dropna(subset=num_cols, how="all")], line 110: a row goes when
    every listed cell is missing. *)
Definition dropna_all {T} (df : list (row T number)) : list (row T number) :=
  List.filter (fun r => negb (forallb isnull (num_cols r))) df.

(** Lines 115-122, one row of the column expression. *)
Definition severity_of {T} (r : row T number) : number :=
  ((pm2_5 r * 5) +
   (pm10 r * 3) +
   (nitrogen_dioxide r * 4) +
   (sulphur_dioxide r * 4) +
   (carbon_monoxide r * 2) +
   (ozone r * 3))%number.

(** Lines 113-126, row by row; [apply] hands a classifier the elements of
    the column, floats or integers. *)
Definition engineer (r : row (option datetime) number) : staged_row :=
  let sev := severity_of r in
  {| observed := r;
     AQI_Category := match pm2_5 r with
                     | Float x => aqi_category x
                     | Int n => aqi_category_int n
                     end;
     severity := sev;
     Risk_Level := match sev with
                   | Float x => classify_risk x
                   | Int n => classify_risk_int n
                   end;
     hour := dt_hour <$> time r |}.

(** [transform_data()], lines 47-131, on the files [glob] lists.
    [pd.DataFrame([])] has no column, so line 97 raises on it. *)
Definition transform_data (raw_files : list raw_file) : transform_outcome :=
  match raw_files with
  | [] => NoRawFiles
  | _ =>
      let all_rows := raw_files ≫= rows_of_file in
      match all_rows with
      | [] => TransformRaised (KeyError "time")
      | _ =>
          match to_datetime (time <$> all_rows) with
          | inl e => TransformRaised e
          | inr read_time =>
              Staged (engineer
                        <$> dropna_all (convert all_rows read_time <$> all_rows))
          end
      end
  end.

End Transform.

(** A small instance of the conversions, to run the model on examples:
    timestamps are kept as their text, no string parses as a number, and
    every time column is accepted. *)
Definition sample_pandas : Pandas := {|
  datetime := string;
  str_to_number := fun _ => Float nan;
  to_datetime := fun _ =>
    inr (fun c => match c with JString s => Some s | _ => None end);
  dt_hour := fun _ => 0
|}.

(** A payload with one hourly reading. *)
Definition one_reading (t : string) (p10 p25 co no2 so2 oz uv : json_cell)
  : gmap string (gmap string (list json_cell)) :=
  {[ "hourly" :=
       {[ "time" := [JString t] ]} ∪ {[ "pm10" := [p10] ]} ∪
       {[ "pm2_5" := [p25] ]} ∪ {[ "carbon_monoxide" := [co] ]} ∪
       {[ "nitrogen_dioxide" := [no2] ]} ∪ {[ "sulphur_dioxide" := [so2] ]} ∪
       {[ "ozone" := [oz] ]} ∪ {[ "uv_index" := [uv] ]} ]}.

Definition sample_file : raw_file := {|
  file_name := "Delhi_raw_20240101_000000.json";
  data := one_reading "2024-01-01T00:00"
            (JNumber #40%f64) (JNumber #60%f64) (JNumber #2%f64)
            (JNumber #10%f64) (JNumber #5%f64) (JNumber #20%f64)
            (JNumber #3%f64)
|}.

(** The rows of the staged dataset that come from one file, [df] being
    the frame of all files and [read_time] what [to_datetime] has settled
    for its time column. *)
Definition staged_of_file `{Pandas} (df : list (row json_cell json_cell))
  (read_time : json_cell -> option datetime) (file : raw_file)
  : list staged_row :=
  engineer <$> dropna_all (convert df read_time <$> rows_of_file file).



(** A reading with every pollutant null and a UV index. *)
Definition uv_only_file : raw_file := {|
  file_name := "Delhi_raw_20240101_000000.json";
  data := one_reading "2024-01-01T00:00"
            JNull JNull JNull JNull JNull JNull (JNumber #3%f64)
|}.

(* ===================================================================== *)
(** ** extract.py: the retrying fetcher and the extraction loop *)
(* ===================================================================== *)

Module Extract.

(** The parsed JSON document of a response, as far as it is read later. *)
Abbreviation payload := (gmap string (gmap string (list json_cell))).

(** The module's configuration, lines 14-34.  A coordinate is kept as the
    text the f-string of line 74 prints for it. *)
Record config : Type := {
  API_BASE : string;
  HOURLY_FIELDS : string;
  CITIES : list string;
  MAX_RETRIES : Z;
  TIMEOUT : Z;
  SLEEP_BETWEEN : float64;
  RAW_DIR : string;
  CITY_COORDS : gmap string (string * string)
}.

(** What [response.json()] does: it raises on a body that is not JSON, or
    returns the parsed document; the document [null] is Python's [None]. *)
Inductive body : Type :=
| NotJson
| Json (document : option payload).

(** What [requests.get(url, timeout=TIMEOUT)] does: it raises, or gives a
    response with a status code and a body. *)
Inductive response : Type :=
| RequestException (message : string)
| HttpResponse (status_code : Z) (json : body).

(** The outside world: the answer to the n-th request, the formatted
    reading of the n-th call of [datetime.now()], and what [time.sleep]
    raises for a length the platform cannot wait for ([OverflowError],
    [OSError]), [None] for every other length. *)
Record network : Type := {
  http : nat -> string -> response;
  now : nat -> string;
  too_long : float64 -> option exception
}.

(** What [time.sleep(seconds)] raises, [None] when it returns: a length
    that is NaN is refused, then one the platform cannot wait for, then a
    negative one. *)
Definition sleep_error (net : network) (seconds : float64)
  : option exception :=
  if isna seconds then
    Some (Exception "ValueError" "Invalid value NaN (not a number)")
  else
    match too_long net seconds with
    | Some e => Some e
    | None =>
        if (seconds <? #0)%f64 then
          Some (Exception "ValueError" "sleep length must be non-negative")
        else None
    end.

(** What the run does, in order: the lines it prints, the requests it
    sends, the sleeps it takes and the files it writes. *)
Inductive event : Type :=
| Fetching (city : string) (attempt max : Z)      (* line 43 *)
| Get (url : string) (timeout : Z)                (* line 45 *)
| ApiError (status_code : Z) (city : string)      (* line 50 *)
| RequestFailed (city : string)                   (* line 53 *)
| Sleep (seconds : float64)                       (* lines 55 and 94: the call *)
| FetchFailed (city : string) (max : Z)           (* line 57 *)
| WriteFile (path : string) (content : payload)   (* lines 88-89 *)
| Saved (path : string).                          (* line 91 *)

Record world : Type := {
  requests : nat;
  clock_reads : nat;
  trace : list event
}.

Definition initial : world :=
  {| requests := 0; clock_reads := 0; trace := [] |}.

Definition emit (e : event) : State world unit :=
  fun w => (tt, {| requests := requests w;
                   clock_reads := clock_reads w;
                   trace := trace w ++ [e] |}).

(** [for i in range(lo, hi)]. *)
Definition range (lo hi : Z) : list Z :=
  (fun i : nat => lo + Z.of_nat i) <$> seq 0 (Z.to_nat (hi - lo)).

Definition starts_with_sep (s : string) : bool :=
  match s with
  | String c _ => Ascii.eqb c "/"
  | EmptyString => false
  end.

Fixpoint ends_with_sep (s : string) : bool :=
  match s with
  | EmptyString => false
  | String c EmptyString => Ascii.eqb c "/"
  | String _ rest => ends_with_sep rest
  end.

(** [os.path.join(a, b)] of [posixpath]: an absolute [b] replaces [a], and
    a separator is put between the two unless [a] is empty or ends with
    one. *)
Definition path_join (a b : string) : string :=
  if starts_with_sep b then b
  else if String.eqb a "" || ends_with_sep a then a ++ b
  else a ++ "/" ++ b.

(** Line 86: the base name of the file written for a city. *)
Definition raw_name (city timestamp : string) : string :=
  city ++ "_raw_" ++ timestamp ++ ".json".

Section Run.

Variable cfg : config.
Variable net : network.

Definition requests_get (url : string) : State world response :=
  fun w => (http net (requests w) url,
            {| requests := S (requests w);
               clock_reads := clock_reads w;
               trace := trace w ++ [Get url (TIMEOUT cfg)] |}).

(** [time.sleep(seconds)]: the call, and what it raises if it does. *)
Definition time_sleep (seconds : float64) : State world (option exception) :=
  emit (Sleep seconds);;
  ret (sleep_error net seconds).

Definition datetime_now : State world string :=
  fun w => (now net (clock_reads w),
            {| requests := requests w;
               clock_reads := S (clock_reads w);
               trace := trace w |}).

(** The loop of [fetch_with_retry], lines 41-58, over the attempts that
    are left.  Every failure of the [try] block (the request raising,
    [.json()] raising) lands in the [except] of line 52; line 48 returns
    what [.json()] gives. *)
Fixpoint fetch_attempts (attempts : list Z) (url city : string)
  : State world (option payload) :=
  match attempts with
  | [] =>
      emit (FetchFailed city (MAX_RETRIES cfg));;
      ret None
  | attempt :: later =>
      let retry_after (report : event) :=
        emit report;;
        emit (Sleep #1%f64);;       (* one second: never refused *)
        fetch_attempts later url city in
      emit (Fetching city attempt (MAX_RETRIES cfg));;
      let* r := requests_get url in
      match r with
      | RequestException _ => retry_after (RequestFailed city)
      | HttpResponse status_code json =>
          if (status_code =? 200)%Z then
            match json with
            | Json document => ret document
            | NotJson => retry_after (RequestFailed city)
            end
          else retry_after (ApiError status_code city)
      end
  end.

Definition fetch_with_retry (url city : string)
  : State world (option payload) :=
  fetch_attempts (range 1 (MAX_RETRIES cfg + 1)) url city.

(** Lines 72-76. *)
Definition build_url (lat lon : string) : string :=
  API_BASE cfg ++ "?latitude=" ++ lat ++ "&longitude=" ++ lon
    ++ "&hourly=" ++ HOURLY_FIELDS cfg.

(** The loop of [extract_air_quality], lines 67-94, over the cities that
    are left; [saved_files] is the list built so far.  [CITY_COORDS[city]]
    raises for a city that has no entry, and so does the sleep of line 94
    for a length [time.sleep] refuses. *)
Fixpoint extract_cities (cities : list string) (saved_files : list string)
  : State world (exception + list string) :=
  match cities with
  | [] => ret (inr saved_files)
  | city :: later =>
      match CITY_COORDS cfg !! city with
      | None => ret (inl (KeyError city))
      | Some (lat, lon) =>
          let url := build_url lat lon in
          let* data := fetch_with_retry url city in
          match data with
          | None => extract_cities later saved_files
          | Some document =>
              let* timestamp := datetime_now in
              let filepath :=
                path_join (RAW_DIR cfg) (raw_name city timestamp) in
              emit (WriteFile filepath document);;
              emit (Saved filepath);;
              let saved_files := (saved_files ++ [filepath])%list in
              let* refused := time_sleep (SLEEP_BETWEEN cfg) in
              match refused with
              | Some e => ret (inl e)
              | None => extract_cities later saved_files
              end
          end
      end
  end.

Definition extract_air_quality : State world (exception + list string) :=
  extract_cities (CITIES cfg) [].

End Run.

(** Observations on a trace. *)
Definition is_get (e : event) : bool :=
  match e with Get _ _ => true | _ => false end.

Definition is_failure (e : event) : bool :=
  match e with ApiError _ _ | RequestFailed _ => true | _ => false end.

(** The cities whose first attempt was announced, in order. *)
Definition cities_started (t : list event) : list string :=
  omap (fun e => match e with
                 | Fetching city attempt _ =>
                     if (attempt =? 1)%Z then Some city else None
                 | _ => None
                 end) t.

(** Every reported failure is immediately followed by a sleep of one
    second. *)
Fixpoint backoff_after_failure (t : list event) : bool :=
  match t with
  | [] => true
  | e :: rest =>
      (if is_failure e
       then match rest with
            | Sleep d :: _ => SFeqb d #1%f64
            | _ => false
            end
       else true) && backoff_after_failure rest
  end.

Definition count (p : event -> bool) (t : list event) : nat :=
  length (List.filter p t).

(** What an attempt comes to: the value that is returned, or the line that
    reports the failure. *)
Definition outcome (city : string) (r : response) : option payload + event :=
  match r with
  | RequestException _ => inr (RequestFailed city)
  | HttpResponse status_code json =>
      if (status_code =? 200)%Z then
        match json with
        | Json document => inl document
        | NotJson => inr (RequestFailed city)
        end
      else inr (ApiError status_code city)
  end.

(** An attempt fails when it comes to a report. *)
Definition fails (city : string) (r : response) : bool :=
  match outcome city r with
  | inr _ => true
  | inl _ => false
  end.

End Extract.

(* ===================================================================== *)
(** ** task-2/scripts/load.py: the batched loader *)
(* ===================================================================== *)

Module Load.

Local Open Scope nat_scope.

Inductive event (record : Type) : Type :=
| Uploading (total : nat)             (* line 67 *)
| Insert (start stop : nat)           (* line 78, for rows[start:stop] *)
| Uploaded (start stop : nat)         (* line 79 *)
| Retry (attempts start stop : nat)   (* line 84 *)
| Error (message : string)            (* line 85 *)
| Sleep (seconds : nat)               (* line 86 *)
| CouldNot (start stop : nat)         (* line 89 *)
| Completed.                          (* line 92 *)

Arguments Uploading {record} _.
Arguments Insert {record} _ _.
Arguments Uploaded {record} _ _.
Arguments Retry {record} _ _ _.
Arguments Error {record} _.
Arguments Sleep {record} _.
Arguments CouldNot {record} _ _.
Arguments Completed {record}.

(** The remote table and what the run has done so far. *)
Record world (record : Type) : Type := {
  calls : nat;                 (* insert calls made *)
  table : list record;         (* rows of [churn_data] *)
  trace : list (event record)
}.

Arguments calls {record} _.
Arguments table {record} _.
Arguments trace {record} _.

(** What [load_data] finds at the staged path: no file (line 50), a frame
    that lacks some of the allowed columns (line 61 raises on it), or a
    frame whose rows, cut to the allowed columns, are to be uploaded. *)
Inductive staged_file (record : Type) : Type :=
| NoFile
| LacksColumns (missing : string)
| Frame (rows : list record).

Arguments NoFile {record}.
Arguments LacksColumns {record} _.
Arguments Frame {record} _.

Definition batch_size : nat := 200.

(** [range(0, stop, step)]. *)
Definition range_step (stop step : nat) : list nat :=
  (fun i => i * step) <$> seq 0 ((stop + step - 1) / step).

(** [rows[start:stop]]. *)
Definition slice {A} (start stop : nat) (rows : list A) : list A :=
  take (stop - start) (drop start rows).

Section Run.

(** A row of the staged file, as the dict [to_dict] gives for it. *)
Context {record : Type}.

(** The store: the n-th insert call executes ([None]) or raises with a
    message. *)
Variable insert_raises : nat -> option string.

Definition initial : world record :=
  {| calls := 0; table := []; trace := [] |}.

Definition emit (e : event record) : State (world record) unit :=
  fun w => (tt, {| calls := calls w; table := table w;
                   trace := trace w ++ [e] |}).

(** [supabase.table("churn_data").insert(batch).execute()]: the rows of
    the batch are in the table when the call does not raise. *)
Definition insert (batch : list record) (start stop : nat)
  : State (world record) (option string) :=
  fun w =>
    let failure := insert_raises (calls w) in
    (failure,
     {| calls := S (calls w);
        table := match failure with
                 | None => table w ++ batch
                 | Some _ => table w
                 end;
        trace := trace w ++ [Insert start stop] |}).

(** The [while attempts < 3 and not success] loop, lines 76-86, entered
    with [success = False]; [left] is [3 - attempts].  The result is
    [success] when the loop is left. *)
Fixpoint upload (left attempts : nat) (batch : list record)
  (start stop : nat) : State (world record) bool :=
  match left with
  | 0 => ret false
  | S left' =>
      let* failure := insert batch start stop in
      match failure with
      | None =>
          emit (Uploaded start stop);;
          ret true
      | Some e =>
          let attempts := attempts + 1 in
          emit (Retry attempts start stop);;
          emit (Error e);;
          emit (Sleep 2);;
          upload left' attempts batch start stop
      end
  end.

(** The [for start in range(0, total, batch_size)] loop, lines 69-90,
    over the starts that are left; line 90 leaves the loop. *)
Fixpoint upload_batches (starts : list nat) (rows : list record)
  (total : nat) : State (world record) unit :=
  match starts with
  | [] => ret tt
  | start :: later =>
      let stop := Nat.min (start + batch_size) total in
      let batch := slice start stop rows in
      let* success := upload 3 0 batch start stop in
      if success then upload_batches later rows total
      else emit (CouldNot start stop);; ret tt
  end.

(** [load_data()], lines 47-92.  The function has no [return]: when it
    does not raise its value is [None], here [tt]. *)
Definition load_data (staged : staged_file record)
  : State (world record) (exception + unit) :=
  match staged with
  | NoFile =>
      ret (inl (Exception "FileNotFoundError"
                  " Staged file not found. Run transform.py first."))
  | LacksColumns missing => ret (inl (KeyError missing))
  | Frame rows =>
      let total := length rows in
      emit (Uploading total);;
      upload_batches (range_step total batch_size) rows total;;
      emit Completed;;
      ret (inr tt)
  end.

End Run.

(** The batches of a run, by their bounds. *)
Definition batches (total : nat) : list (nat * nat) :=
  (fun start => (start, Nat.min (start + batch_size) total))
    <$> range_step total batch_size.

(** A store in which no insert ever succeeds. *)
Definition always_raises : nat -> option string := fun _ => Some "timeout".

Definition is_insert {record} (e : event record) : bool :=
  match e with Insert _ _ => true | _ => false end.

Definition is_could_not {record} (e : event record) : bool :=
  match e with CouldNot _ _ => true | _ => false end.

(** What the retry loop of one batch may leave in the trace. *)
Definition of_batch {record} (start stop : nat) (e : event record) : Prop :=
  match e with
  | Insert a b => a = start /\ b = stop
  | CouldNot _ _ | Completed | Uploading _ => False
  | _ => True
  end.

End Load.

(* ===================================================================== *)
(** ** run_pipeline.py: the orchestrator *)
(* ===================================================================== *)

Module Pipeline.

(** The four step functions imported in lines 13-16. *)
Inductive stage : Type :=
| extract_air_quality
| transform_data
| load_data
| run_analysis.

(** What a call of a step function does: it returns, it raises an
    [Exception] (with the text [traceback.format_exc()] gives for it), or
    it raises something line 32 does not catch ([SystemExit],
    [KeyboardInterrupt]). *)
Inductive behaviour : Type :=
| Returns
| Raises (e : exception) (stack : string)
| RaisesBase (e : exception).

(** How a run ends when it does not reach the end of [main]. *)
Inductive exit : Type :=
| SystemExit (message : string)
| Uncaught (e : exception).

Inductive event : Type :=
| Banner                                     (* lines 39-41 *)
| Starting (step_name : string)              (* line 23 *)
| Call (s : stage)                           (* line 27 *)
| Completed (step_name : string) (seconds : float64)   (* line 29 *)
| ErrorIn (step_name : string) (e : exception)         (* line 33 *)
| Traceback (stack : string)                 (* line 34 *)
| Finished.                                  (* lines 55-56 *)

Record world : Type := {
  clock_reads : nat;
  trace : list event
}.

Definition initial : world := {| clock_reads := 0; trace := [] |}.

Definition emit (e : event) : State world unit :=
  fun w => (tt, {| clock_reads := clock_reads w; trace := trace w ++ [e] |}).

Section Run.

(** What each step does in this run. *)
Variable does : stage -> behaviour.
(** The n-th reading of [time.time()] and [round(x, 2)]. *)
Variable clock : nat -> float64.
Variable round2 : float64 -> float64.

Definition time_time : State world float64 :=
  fun w => (clock (clock_reads w),
            {| clock_reads := S (clock_reads w); trace := trace w |}).

Definition call (s : stage) : State world behaviour :=
  emit (Call s);; ret (does s).

(** [run_step(step_name, step_function)], lines 19-35. *)
Definition run_step (step_name : string) (step_function : stage)
  : State world (exit + unit) :=
  emit (Starting step_name);;
  let* start := time_time in
  let* outcome := call step_function in
  match outcome with
  | Returns =>
      let* stop := time_time in
      emit (Completed step_name (round2 (stop - start)%f64));;
      ret (inr tt)
  | Raises e stack =>
      emit (ErrorIn step_name e);;
      emit (Traceback stack);;
      ret (inl (SystemExit ("⛔ Pipeline stopped at: " ++ step_name)))
  | RaisesBase e => ret (inl (Uncaught e))
  end.

(** A statement after one that may leave the function. *)
Definition and_then (m : State world (exit + unit))
  (k : State world (exit + unit)) : State world (exit + unit) :=
  let* r := m in
  match r with
  | inl x => ret (inl x)
  | inr _ => k
  end.

Infix ">>" := and_then (at level 60, right associativity).

(** [main()], lines 38-56. *)
Definition main : State world (exit + unit) :=
  emit Banner;;
  (run_step "Extract Step" extract_air_quality >>
   run_step "Transform Step" transform_data >>
   run_step "Load Step (Supabase)" load_data >>
   run_step "Analysis Step" run_analysis >>
   (emit Finished;; ret (inr tt))).

End Run.

Definition step_name (s : stage) : string :=
  match s with
  | extract_air_quality => "Extract Step"
  | transform_data => "Transform Step"
  | load_data => "Load Step (Supabase)"
  | run_analysis => "Analysis Step"
  end.

Definition stages : list stage :=
  [extract_air_quality; transform_data; load_data; run_analysis].

(** The step functions a run has called, in order. *)
Definition called (t : list event) : list stage :=
  omap (fun e => match e with Call s => Some s | _ => None end) t.

(** The steps for which a run has printed an elapsed time. *)
Definition timed (t : list event) : list string :=
  omap (fun e => match e with Completed n _ => Some n | _ => None end) t.

Definition returns (b : behaviour) : bool :=
  match b with Returns => true | _ => false end.

(** The steps up to and with the first that does not return. *)
Fixpoint through_first_failure (does : stage -> behaviour) (l : list stage)
  : list stage :=
  match l with
  | [] => []
  | s :: later =>
      s :: (if returns (does s) then through_first_failure does later else [])
  end.

(** A run in which the transform step raises. *)
Definition transform_fails (s : stage) : behaviour :=
  match s with
  | transform_data =>
      Raises (KeyError "time") "Traceback (most recent call last): ..."
  | _ => Returns
  end.

End Pipeline.

(* ===================================================================== *)
(** ** etl_analysis.py: the entry point of the analysis *)
(* ===================================================================== *)

Module Analysis.

(** The dict of lines 93-100, one optional value per key. *)
Record kpi_summary : Type := {
  city_highest_avg_pm2_5 : option string;
  highest_avg_pm2_5 : option float64;
  city_highest_avg_severity : option string;
  highest_avg_severity : option float64;
  worst_hour_of_day : option Z;
  worst_hour_avg_pm2_5 : option float64
}.

(** The summary with every field null. *)
Definition null_summary : kpi_summary :=
  {| city_highest_avg_pm2_5 := None; highest_avg_pm2_5 := None;
     city_highest_avg_severity := None; highest_avg_severity := None;
     worst_hour_of_day := None; worst_hour_avg_pm2_5 := None |}.

(** A row of [risk_dist]: city, risk flag, count, total, percent. *)
Definition risk_row : Type := string * string * nat * nat * float64.

(** A row of [trends]: city, time, pm2_5, pm10, ozone. *)
Definition trend_row (datetime : Type) : Type :=
  string * datetime * float64 * float64 * float64.

(** The answer of the store to [select("*")]: the call raises, or its
    [data] is [None] or a list of row dicts. *)
Inductive query_result (record : Type) : Type :=
| QueryRaises (message : string)
| QueryData (data : option (list record)).

Arguments QueryRaises {record} _.
Arguments QueryData {record} _.

Inductive event (datetime : Type) : Type :=
| NoData                                          (* line 171 *)
| SaveSummary (summary : kpi_summary)             (* line 111 *)
| SaveRiskDist (risk_dist : list risk_row)        (* line 112 *)
| SaveTrends (trends : list (trend_row datetime)) (* line 113 *)
| CsvSaved                                        (* line 114 *)
| SavePlots                                       (* lines 116-166 *)
| AnalysisComplete.                               (* line 186 *)

Arguments NoData {datetime}.
Arguments SaveSummary {datetime} _.
Arguments SaveRiskDist {datetime} _.
Arguments SaveTrends {datetime} _.
Arguments CsvSaved {datetime}.
Arguments SavePlots {datetime}.
Arguments AnalysisComplete {datetime}.

Section Run.

Context {record datetime : Type}.

(** The keys of a row dict: the columns of the frame are the keys of its
    rows. *)
Variable keys : record -> list string.

(** Lines 63-71 on a list of row dicts that is not empty: the frame, with
    its time and numeric columns converted; [pd.to_datetime] raises on a
    time column it refuses (mixed UTC offsets). *)
Variable to_frame : list record -> exception + list record.

(** The pandas computations of lines 74-166 on a frame with rows; they
    raise when the frame lacks a column they group by. *)
Variable compute_kpis :
  list record -> exception + (kpi_summary * list risk_row).
Variable export_trends :
  list record -> exception + list (trend_row datetime).
Variable make_plots : list record -> option exception.

(** [fetch_table_as_df()], lines 46-72: the frame, by its rows.
    [pd.DataFrame()] of line 62 is the frame without rows. *)
Definition fetch_table_as_df (q : query_result record)
  : exception + list record :=
  match q with
  | QueryRaises e =>
      inl (Exception "RuntimeError" ("Supabase query failed: " ++ e))
  | QueryData None => inr []
  | QueryData (Some []) => inr []
  | QueryData (Some data) => to_frame data
  end.

(** [df.empty]: the frame has no row, or no column. *)
Definition empty (df : list record) : bool :=
  forallb (fun r => match keys r with [] => true | _ => false end) df.

(** [main()], lines 168-186: what it raises if it does, and what it
    has printed and saved. *)
Definition main (q : query_result record)
  : (exception + unit) * list (event datetime) :=
  match fetch_table_as_df q with
  | inl e => (inl e, [])
  | inr df =>
      if empty df then (inr tt, [NoData])
      else
        match compute_kpis df with
        | inl e => (inl e, [])
        | inr (summary_df, risk_dist) =>
            match export_trends df with
            | inl e => (inl e, [])
            | inr trends =>
                let saved := [SaveSummary summary_df;
                              SaveRiskDist risk_dist;
                              SaveTrends trends; CsvSaved] in
                match make_plots df with
                | Some e => (inl e, saved)
                | None =>
                    (inr tt, (saved ++ [SavePlots; AnalysisComplete])%list)
                end
            end
        end
  end.

End Run.

(** What a run has yielded: the summaries and the two sequences it saved. *)
Definition summaries {datetime} (t : list (event datetime))
  : list kpi_summary :=
  omap (fun e => match e with SaveSummary s => Some s | _ => None end) t.

Definition distributions {datetime} (t : list (event datetime))
  : list (list risk_row) :=
  omap (fun e => match e with SaveRiskDist d => Some d | _ => None end) t.

Definition trend_tables {datetime} (t : list (event datetime))
  : list (list (trend_row datetime)) :=
  omap (fun e => match e with SaveTrends d => Some d | _ => None end) t.

(** Stand-ins for the pandas computations, to run [main] on examples. *)
Definition city_only (r : unit) : list string := ["city"].

Definition as_it_is (data : list unit) : exception + list unit := inr data.

Definition no_kpis (df : list unit)
  : exception + (kpi_summary * list risk_row) :=
  inl (KeyError "city").

Definition no_trends (df : list unit) : exception + list (trend_row unit) :=
  inl (KeyError "['city', 'time', 'pm2_5', 'pm10', 'ozone']").

Definition no_plots (df : list unit) : option exception := None.

End Analysis.

(* ===================================================================== *)
(** ** Examples for the extraction *)
(* ===================================================================== *)

(** Two cities, three attempts each; the
    first three requests fail (a refused connection, a 503, a 200 whose
    body does not parse), the fourth is answered. *)
Module ExtractExample.

Import Extract.

Definition cfg : config := {|
  API_BASE := "https://air-quality-api.open-meteo.com/v1/air-quality";
  HOURLY_FIELDS := "pm10,pm2_5";
  CITIES := ["Delhi"; "Mumbai"];
  MAX_RETRIES := 3;
  TIMEOUT := 10;
  SLEEP_BETWEEN := S754_finite false 4503599627370496 (-53);
  RAW_DIR := "data/raw";
  CITY_COORDS := {[ "Delhi" := ("28.7041", "77.1025") ]}
                 ∪ {[ "Mumbai" := ("19.076", "72.8777") ]}
|}.

Definition net : network := {|
  http := fun n _ =>
    match n with
    | 0%nat => RequestException "Connection refused"
    | 1%nat => HttpResponse 503 NotJson
    | 2%nat => HttpResponse 200 NotJson
    | _ => HttpResponse 200 (Json (Some (data sample_file)))
    end;
  now := fun _ => "20240101_000000";
  too_long := fun _ => None
|}.

End ExtractExample.

(* ===================================================================== *)
(** ** Further observations and examples *)
(* ===================================================================== *)

(** The bands of [aqi_category] from the cleanest up; "Unknown" is none. *)
Definition aqi_rank (label : string) : option nat :=
  if String.eqb label "Good" then Some 0%nat
  else if String.eqb label "Moderate" then Some 1%nat
  else if String.eqb label "Unhealthy" then Some 2%nat
  else if String.eqb label "Very Unhealthy" then Some 3%nat
  else if String.eqb label "Hazardous" then Some 4%nat
  else None.

(** The levels of [classify_risk] from the lowest up. *)
Definition risk_rank (label : string) : option nat :=
  if String.eqb label "Low Risk" then Some 0%nat
  else if String.eqb label "Moderate Risk" then Some 1%nat
  else if String.eqb label "High Risk" then Some 2%nat
  else None.

(** The eight arrays a payload is read for, in the order of line 78. *)
Definition hourly_keys : list string :=
  ["time"; "pm10"; "pm2_5"; "carbon_monoxide"; "nitrogen_dioxide";
   "sulphur_dioxide"; "ozone"; "uv_index"].

(** A payload whose arrays have three entries, but two for ozone. *)
Definition ragged_file : raw_file := {|
  file_name := "Mumbai_raw_20240101_000000.json";
  data :=
    {[ "hourly" :=
         {[ "time" := [JString "t0"; JString "t1"; JString "t2"] ]} ∪
         {[ "pm10" := [JNumber #1%f64; JNumber #2%f64; JNumber #3%f64] ]} ∪
         {[ "pm2_5" := [JNumber #1%f64; JNumber #2%f64; JNumber #3%f64] ]} ∪
         {[ "carbon_monoxide" := [JNull; JNull; JNull] ]} ∪
         {[ "nitrogen_dioxide" := [JNull; JNull; JNull] ]} ∪
         {[ "sulphur_dioxide" := [JNull; JNull; JNull] ]} ∪
         {[ "ozone" := [JNumber #7%f64; JNumber #8%f64] ]} ∪
         {[ "uv_index" := [JNull; JNull; JNull] ]} ]}
|}.

(** A file whose JSON object has no "hourly" entry. *)
Definition no_hourly_file : raw_file := {|
  file_name := "Kolkata_raw_20240101_000000.json";
  data := {[ "error" := ∅ ]}
|}.

(** A reading with PM2.5 at 500 and no ozone. *)
Definition hazardous_no_ozone_file : raw_file := {|
  file_name := "Delhi_raw_20240102_000000.json";
  data := one_reading "2024-01-02T00:00"
            (JNumber #600%f64) (JNumber #500%f64) (JNumber #2%f64)
            (JNumber #10%f64) (JNumber #5%f64) JNull
            (JNumber #3%f64)
|}.

(** The six pollutant cells of a row, in the order of the severity
    formula (lines 115-122). *)
Definition pollutants {T N} (r : row T N) : list N :=
  [pm2_5 r; pm10 r; nitrogen_dioxide r; sulphur_dioxide r;
   carbon_monoxide r; ozone r].

Definition is_int (v : number) : bool :=
  match v with
  | Int _ => true
  | Float _ => false
  end.

(** A cell that reads as an integer, of any size. *)
Definition reads_integer `{Pandas} (c : json_cell) : bool :=
  is_int (scalar c).

(** A cell that does not read as an integer beyond 64 bits. *)
Definition in_int64_range `{Pandas} (c : json_cell) : bool :=
  match scalar c with
  | Int n => fits_int64 n
  | Float _ => true
  end.

(** An instance of the conversions in which the time column is refused,
    as pandas refuses one with mixed UTC offsets. *)
Definition refusing_pandas : Pandas := {|
  datetime := string;
  str_to_number := fun _ => Float nan;
  to_datetime := fun _ =>
    inl (Exception "ValueError" "Mixed timezones detected");
  dt_hour := fun _ => 0
|}.

(** The sample reading with every cell written as an integer. *)
Definition integer_file : raw_file := {|
  file_name := "Delhi_raw_20240103_000000.json";
  data := one_reading "2024-01-03T00:00"
            (JInteger 40) (JInteger 60) (JInteger 2)
            (JInteger 10) (JInteger 5) (JInteger 20) (JInteger 3)
|}.

Module ExtractMore.

Import Extract.

(** Of the [n] requests from the [k]-th on, the value of the first that
    does not fail; [None] when every one fails. *)
Fixpoint first_answer (net : network) (url city : string) (n k : nat)
  : option payload :=
  match n with
  | O => None
  | S n' =>
      match outcome city (http net k url) with
      | inl document => document
      | inr _ => first_answer net url city n' (S k)
      end
  end.

(** The paths a run reports as saved, and those it has written. *)
Definition saved_paths (t : list event) : list string :=
  omap (fun e => match e with Saved p => Some p | _ => None end) t.

Definition written_paths (t : list event) : list string :=
  omap (fun e => match e with WriteFile p _ => Some p | _ => None end) t.

(** The example configuration with retries switched off. *)
Definition cfg_no_retry : config := {|
  API_BASE := API_BASE ExtractExample.cfg;
  HOURLY_FIELDS := HOURLY_FIELDS ExtractExample.cfg;
  CITIES := CITIES ExtractExample.cfg;
  MAX_RETRIES := 0;
  TIMEOUT := TIMEOUT ExtractExample.cfg;
  SLEEP_BETWEEN := SLEEP_BETWEEN ExtractExample.cfg;
  RAW_DIR := RAW_DIR ExtractExample.cfg;
  CITY_COORDS := CITY_COORDS ExtractExample.cfg
|}.

(** The example configuration with a city that has no coordinates between
    the two that have. *)
Definition cfg_unknown_city : config := {|
  API_BASE := API_BASE ExtractExample.cfg;
  HOURLY_FIELDS := HOURLY_FIELDS ExtractExample.cfg;
  CITIES := ["Delhi"; "Pune"; "Mumbai"];
  MAX_RETRIES := 3;
  TIMEOUT := TIMEOUT ExtractExample.cfg;
  SLEEP_BETWEEN := SLEEP_BETWEEN ExtractExample.cfg;
  RAW_DIR := RAW_DIR ExtractExample.cfg;
  CITY_COORDS := CITY_COORDS ExtractExample.cfg
|}.

(** The example configuration with a negative pause between the cities. *)
Definition cfg_negative_sleep : config := {|
  API_BASE := API_BASE ExtractExample.cfg;
  HOURLY_FIELDS := HOURLY_FIELDS ExtractExample.cfg;
  CITIES := CITIES ExtractExample.cfg;
  MAX_RETRIES := 3;
  TIMEOUT := TIMEOUT ExtractExample.cfg;
  SLEEP_BETWEEN := #(-1)%f64;
  RAW_DIR := "data/raw/";
  CITY_COORDS := CITY_COORDS ExtractExample.cfg
|}.

(** A network that answers every request. *)
Definition net_up : network := {|
  http := fun _ _ => HttpResponse 200 (Json (Some (data sample_file)));
  now := fun n => if Nat.eqb n 0 then "20240101_000000" else "20240101_000001";
  too_long := fun _ => None
|}.

End ExtractMore.

Module LoadMore.

Import Load.

(** How many events of a kind a trace has. *)
Definition count_events {record} (p : event record -> bool)
  (t : list (event record)) : nat :=
  length (List.filter p t).

(** A store in which no insert raises. *)
Definition never_raises : nat -> option string := fun _ => None.

(** A store that refuses the first two inserts. *)
Definition raises_twice : nat -> option string :=
  fun n => if Nat.ltb n 2 then Some "timeout" else None.

End LoadMore.

Module PipelineMore.

Import Pipeline.

(** The two lines of the [except] branch of [run_step]. *)
Definition is_error_report (e : event) : bool :=
  match e with ErrorIn _ _ | Traceback _ => true | _ => false end.

(** A run in which every step returns. *)
Definition all_return (s : stage) : behaviour := Returns.

(** A run in which the load step is interrupted from the keyboard. *)
Definition load_interrupted (s : stage) : behaviour :=
  match s with
  | load_data => RaisesBase (Exception "KeyboardInterrupt" "")
  | _ => Returns
  end.

End PipelineMore.

(* ===================================================================== *)
(** ** etl_analysis.py: the trend table *)
(* ===================================================================== *)

Module Trends.

(** A row of the frame read back, in the five columns line 107 selects.
    The time is a timestamp in nanoseconds, [None] for NaT (line 66
    converts with [errors="coerce"]). *)
Record reading : Type := {
  city : string;
  time : option Z;
  pm2_5 : float64;
  pm10 : float64;
  ozone : float64
}.

(** [dropna(subset=["time"])]. *)
Definition dropna_time (df : list reading) : list reading :=
  List.filter (fun r => match time r with Some _ => true | None => false end)
    df.

(** The order [sort_values(["city", "time"])] sorts by: the city first, as
    Python compares strings, then the time, a missing one last. *)
Definition time_le (a b : option Z) : bool :=
  match a, b with
  | Some x, Some y => (x <=? y)%Z
  | _, None => true
  | None, Some _ => false
  end.

Definition key_le (a b : reading) : bool :=
  match String.compare (city a) (city b) with
  | Lt => true
  | Gt => false
  | Eq => time_le (time a) (time b)
  end.

(** A stable sort: a row goes before the first row that is not below it. *)
Fixpoint insert (r : reading) (sorted : list reading) : list reading :=
  match sorted with
  | [] => [r]
  | x :: rest => if key_le r x then r :: x :: rest else x :: insert r rest
  end.

Fixpoint sort_values (df : list reading) : list reading :=
  match df with
  | [] => []
  | r :: rest => insert r (sort_values rest)
  end.

(** [export_trends(df)], lines 105-108. *)
Definition export_trends (df : list reading) : list reading :=
  sort_values (dropna_time df).

(** Each row is followed by one that is not below it. *)
Fixpoint is_sorted (df : list reading) : bool :=
  match df with
  | x :: (y :: _) as rest => key_le x y && is_sorted rest
  | _ => true
  end.

Definition reading_of (c : string) (t : option Z) (v : Z) : reading :=
  {| city := c; time := t; pm2_5 := #v%f64; pm10 := #v%f64;
     ozone := #v%f64 |}.

Definition sample_frame : list reading :=
  [reading_of "Mumbai" (Some 2) 1; reading_of "Delhi" None 2;
   reading_of "Delhi" (Some 5) 3; reading_of "Mumbai" (Some 1) 4;
   reading_of "Delhi" (Some 3) 5].

End Trends.

(* ===================================================================== *)
(** ** The steps as the orchestrator sees them *)
(* ===================================================================== *)

(** What [run_step] sees of a call of [transform_data]: the function
    returns when it finds no raw file (line 55) and when it has written the
    staged file; it raises when the frame has no column. *)
Definition transform_step `{Pandas} (raw_files : list raw_file)
  : Pipeline.behaviour :=
  match transform_data raw_files with
  | NoRawFiles => Pipeline.Returns
  | TransformRaised e => Pipeline.Raises e "Traceback (most recent call last): ..."
  | Staged _ => Pipeline.Returns
  end.

(** A run of the pipeline in which the other three steps return. *)
Definition with_transform `{Pandas} (raw_files : list raw_file)
  (s : Pipeline.stage) : Pipeline.behaviour :=
  match s with
  | Pipeline.transform_data => transform_step raw_files
  | _ => Pipeline.Returns
  end.

(* ===================================================================== *)
(** ** Facts about binary64 comparison *)
(* ===================================================================== *)

Local Open Scope list_scope.

Section Float64Facts.

Lemma SFcompare_antisym (x y : float64) :
  SFcompare y x = CompOpp <$> SFcompare x y.
Proof.
  destruct x as [sx|sx| |sx mx ex], y as [sy|sy| |sy my ey]; cbn;
    try reflexivity;
    try (destruct sx; reflexivity);
    try (destruct sy; reflexivity);
    try (destruct sx, sy; reflexivity).
  assert (Hm : Pos.compare_cont Eq my mx = CompOpp (Pos.compare_cont Eq mx my))
    by (symmetry; apply (Pos.compare_cont_antisym mx my Eq)).
  destruct sx, sy; cbn; try reflexivity; f_equal;
    rewrite (Z.compare_antisym ex ey), Hm;
    destruct (ex ?= ey)%Z; reflexivity.
Qed.

Lemma ltb_notna_l (x y : float64) : (x <? y)%f64 = true -> isna x = false.
Proof. destruct x; [reflexivity..|discriminate|reflexivity]. Qed.

Lemma ltb_notna_r (x y : float64) : (x <? y)%f64 = true -> isna y = false.
Proof. destruct x, y; try reflexivity; discriminate. Qed.

Lemma leb_notna_l (x y : float64) : (x <=? y)%f64 = true -> isna x = false.
Proof. destruct x; [reflexivity..|discriminate|reflexivity]. Qed.

(** Among numbers, [x <= y] is the negation of [y < x]; with a NaN both
    are false. *)
Lemma leb_negb_ltb (x y : float64) :
  isna x = false -> isna y = false -> (x <=? y)%f64 = negb (y <? x)%f64.
Proof.
  intros Hx Hy. unfold leb, ltb, SFleb, SFltb.
  rewrite (SFcompare_antisym x y).
  destruct (SFcompare x y) as [[]|] eqn:E; cbn; try reflexivity.
  destruct x, y; discriminate.
Qed.

Lemma ltb_leb_false (x y : float64) :
  (x <? y)%f64 = true -> (y <=? x)%f64 = false.
Proof.
  intros H. rewrite leb_negb_ltb, H; eauto using ltb_notna_l, ltb_notna_r.
Qed.

Lemma leb_ltb_false (x y : float64) :
  (x <=? y)%f64 = true -> (y <? x)%f64 = false.
Proof.
  intros H. destruct (y <? x)%f64 eqn:E; [|reflexivity].
  apply ltb_leb_false in E. congruence.
Qed.

Lemma not_leb_ltb (x y : float64) :
  isna x = false -> isna y = false ->
  (x <=? y)%f64 = false -> (y <? x)%f64 = true.
Proof.
  intros Hx Hy H. rewrite leb_negb_ltb in H by assumption.
  destruct (y <? x)%f64; [reflexivity|discriminate].
Qed.

Ltac order_cases :=
  repeat (match goal with
          | |- context [(?a ?= ?a)%Z] => rewrite (Z.compare_refl a)
          | |- context [(?a ?= ?b)%Z] =>
              destruct (Z.compare_spec a b); try subst
          | |- context [Pos.compare_cont Eq ?a ?b] =>
              change (Pos.compare_cont Eq a b) with (Pos.compare a b)
          | |- context [(?a ?= ?a)%positive] => rewrite (Pos.compare_refl a)
          | |- context [(?a ?= ?b)%positive] =>
              destruct (Pos.compare_spec a b); try subst
          end; cbn; try easy; try lia).

(** The order is transitive, also through a non-strict step. *)
Lemma ltb_leb_trans (x y z : float64) :
  (x <? y)%f64 = true -> (y <=? z)%f64 = true -> (x <? z)%f64 = true.
Proof.
  unfold ltb, leb, SFltb, SFleb.
  destruct x as [[]|[]| |[] mx ex], y as [[]|[]| |[] my ey],
           z as [[]|[]| |[] mz ez]; cbn; try easy; order_cases.
Qed.

Corollary ltb_leb_bound (a b v : float64) :
  (a <? b)%f64 = false -> (a <? v)%f64 = true -> (v <=? b)%f64 = false.
Proof.
  intros Hab Hav. destruct (v <=? b)%f64 eqn:E; [|reflexivity].
  rewrite (ltb_leb_trans _ _ _ Hav E) in Hab. discriminate.
Qed.

End Float64Facts.

(* ===================================================================== *)
(** ** The classifiers *)
(* ===================================================================== *)

Section Classifiers.

Local Open Scope f64_scope.

(** From the answer to the tests the code made. *)
Ltac tests_of_answer :=
  let H := fresh in
  intros H; revert H; unfold aqi_category, classify_risk, gtb;
  repeat case_match; try discriminate; intros _;
  repeat split;
  first [ assumption
        | apply not_leb_ltb; solve [assumption | reflexivity]
        | rewrite leb_negb_ltb by
            (first [assumption | reflexivity | eauto using ltb_notna_r]);
          apply negb_true_iff; assumption
        | idtac ].

(** From a band to the tests the code makes, hence to its answer. *)
Ltac answer_of_band :=
  let H := fresh in
  intros H; try match type of H with _ /\ _ => destruct H end;
  unfold aqi_category, classify_risk, gtb in *;
  repeat match goal with
    | H : (?a <? ?v) = true |- context [isna ?v] =>
        rewrite (ltb_notna_r a v H)
    | H : (?v <=? ?a) = true |- context [isna ?v] =>
        rewrite (leb_notna_l v a H)
    | H : (?v <=? ?a) = true |- context [?v <=? ?a] => rewrite H
    | H : (?a <? ?v) = true |- context [?a <? ?v] => rewrite H
    | H : (?a <? ?v) = true |- context [?v <=? ?b] =>
        rewrite (ltb_leb_bound a b v eq_refl H)
    | H : (?v <=? ?a) = true |- context [?a <? ?v] =>
        rewrite (leb_ltb_false v a H)
    end;
  try reflexivity.

(** C4. [aqi_category] returns a label for every binary64 value, NaN
    included, and each label is returned exactly on its band: "Unknown"
    on the missing value, "Good" up to 50, "Moderate" above 50 up to 100,
    "Unhealthy" above 100 up to 200, "Very Unhealthy" above 200 up to 300,
    "Hazardous" above 300.  On an integer, the element of an int64 column,
    the bands are the same, and "Unknown" is never the answer. *)
Theorem aqi_category_bands (v : float64) (n : Z) :
  ((aqi_category v = "Unknown" <-> isna v = true) /\
   (aqi_category v = "Good" <-> (v <=? #50) = true) /\
   (aqi_category v = "Moderate" <->
      (#50 <? v) = true /\ (v <=? #100) = true) /\
   (aqi_category v = "Unhealthy" <->
      (#100 <? v) = true /\ (v <=? #200) = true) /\
   (aqi_category v = "Very Unhealthy" <->
      (#200 <? v) = true /\ (v <=? #300) = true) /\
   (aqi_category v = "Hazardous" <-> (#300 <? v) = true) /\
   aqi_category v ∈
     ["Unknown"; "Good"; "Moderate"; "Unhealthy"; "Very Unhealthy";
      "Hazardous"]) /\
  ((aqi_category_int n = "Good" <-> (n <= 50)%Z) /\
   (aqi_category_int n = "Moderate" <-> (50 < n <= 100)%Z) /\
   (aqi_category_int n = "Unhealthy" <-> (100 < n <= 200)%Z) /\
   (aqi_category_int n = "Very Unhealthy" <-> (200 < n <= 300)%Z) /\
   (aqi_category_int n = "Hazardous" <-> (300 < n)%Z) /\
   aqi_category_int n <> "Unknown").
Proof.
  split.
  2:{ unfold aqi_category_int.
      destruct (Z.leb_spec n 50), (Z.leb_spec n 100), (Z.leb_spec n 200),
        (Z.leb_spec n 300);
        repeat split; intros; try discriminate; try lia; reflexivity. }
  repeat apply conj.
  - tests_of_answer.
  - intros H. unfold aqi_category. now rewrite H.
  - tests_of_answer.
  - answer_of_band.
  - tests_of_answer.
  - answer_of_band.
  - tests_of_answer.
  - answer_of_band.
  - tests_of_answer.
  - answer_of_band.
  - tests_of_answer.
  - answer_of_band.
  - unfold aqi_category. repeat case_match; set_solver.
Qed.

(** C5. [classify_risk] answers for every binary64 severity, NaN included,
    with one of three labels: "High Risk" exactly above 400, "Moderate
    Risk" exactly above 200 and up to 400, "Low Risk" exactly in the
    remaining cases; the missing severity (NaN) is one of those and gets
    "Low Risk".  On an integer severity, the element of an int64 column,
    the three buckets are the same. *)
Theorem classify_risk_buckets (s : float64) (n : Z) :
  ((classify_risk s = "High Risk" <-> (s >? #400) = true) /\
   (classify_risk s = "Moderate Risk" <->
      (#200 <? s) = true /\ (s <=? #400) = true) /\
   (classify_risk s = "Low Risk" <->
      (s >? #400) = false /\ ((#200 <? s) && (s <=? #400)) = false) /\
   classify_risk nan = "Low Risk" /\
   classify_risk s ∈ ["High Risk"; "Moderate Risk"; "Low Risk"]) /\
  ((classify_risk_int n = "High Risk" <-> (400 < n)%Z) /\
   (classify_risk_int n = "Moderate Risk" <-> (200 < n <= 400)%Z) /\
   (classify_risk_int n = "Low Risk" <-> (n <= 200)%Z)).
Proof.
  split.
  2:{ unfold classify_risk_int.
      destruct (Z.gtb_spec n 400), (Z.gtb_spec n 200);
        repeat split; intros; try discriminate; try lia; reflexivity. }
  repeat apply conj.
  - tests_of_answer.
  - answer_of_band.
  - tests_of_answer.
  - answer_of_band.
  - unfold classify_risk, gtb.
    destruct (#400 <? s) eqn:E4; [discriminate|].
    destruct (#200 <? s) eqn:E2; [discriminate|]. easy.
  - intros [H1 H2]. unfold classify_risk, gtb in *. rewrite H1.
    destruct (#200 <? s) eqn:E; [|reflexivity].
    rewrite leb_negb_ltb, H1 in H2 by eauto using ltb_notna_r.
    discriminate.
  - reflexivity.
  - unfold classify_risk. repeat case_match; set_solver.
Qed.

(** The reading of the worked example: PM2.5 of 60 is "Moderate", a
    severity of 544 is "High Risk"; the band bounds belong to the lower
    band. *)
Example classifiers_on_examples :
  aqi_category #60 = "Moderate" /\ classify_risk #544 = "High Risk" /\
  aqi_category #50 = "Good" /\ aqi_category #300 = "Very Unhealthy" /\
  classify_risk #400 = "Moderate Risk" /\ classify_risk #200 = "Low Risk" /\
  aqi_category_int 60 = "Moderate" /\ classify_risk_int 544 = "High Risk".
Proof. repeat split. Qed.

End Classifiers.

(* ===================================================================== *)
(** ** Arithmetic with the missing value *)
(* ===================================================================== *)

Section Float64Arith.

Local Open Scope f64_scope.

Lemma mul_comm (x y : float64) : x * y = y * x.
Proof.
  unfold mul, SFmul.
  destruct x as [sx|sx| |sx mx ex], y as [sy|sy| |sy my ey];
    try reflexivity; rewrite (xorb_comm sx sy); try reflexivity.
  now rewrite Pos.mul_comm, Z.add_comm.
Qed.

Lemma isna_mul_l (x y : float64) : isna x = true -> isna (x * y) = true.
Proof. destruct x; try discriminate. reflexivity. Qed.

Lemma isna_add_l (x y : float64) : isna x = true -> isna (x + y) = true.
Proof. destruct x; try discriminate. reflexivity. Qed.

Lemma isna_add_r (x y : float64) : isna y = true -> isna (x + y) = true.
Proof. destruct y; try discriminate. destruct x; reflexivity. Qed.

End Float64Arith.

Create HintDb nan.
#[local] Hint Resolve isna_mul_l isna_add_l isna_add_r : nan.

(* ===================================================================== *)
(** ** transform.py *)
(* ===================================================================== *)

Section TransformFacts.

Context `{Pandas}.

Lemma transform_data_staged (raw_files : list raw_file) rows :
  transform_data raw_files = Staged rows ->
  let all_rows := raw_files ≫= rows_of_file in
  exists read_time,
    to_datetime (time <$> all_rows) = inr read_time /\
    rows = engineer <$> dropna_all (convert all_rows read_time <$> all_rows).
Proof.
  unfold transform_data. destruct raw_files as [|f fs]; [discriminate|].
  destruct (_ ≫= _) as [|r0 rs]; [discriminate|].
  destruct (to_datetime _) as [e|read_time]; [discriminate|].
  intros [= <-]. now exists read_time.
Qed.

Lemma staged_row_engineered (raw_files : list raw_file) rows r :
  transform_data raw_files = Staged rows -> r ∈ rows ->
  r = engineer (observed r).
Proof.
  intros (read_time & _ & ->)%transform_data_staged
    (o & -> & _)%list_elem_of_fmap.
  reflexivity.
Qed.

Lemma isnull_times (v : number) (k : Z) :
  isnull v = true -> isnull (v * k)%number = true.
Proof. destruct v as [n|x]; [discriminate|]. apply isna_mul_l. Qed.

Lemma isnull_plus_l (v w : number) :
  isnull v = true -> isnull (v + w)%number = true.
Proof. destruct v as [n|x]; [discriminate|]. apply isna_add_l. Qed.

Lemma isnull_plus_r (v w : number) :
  isnull w = true -> isnull (v + w)%number = true.
Proof.
  destruct w as [n|y]; [discriminate|]. intros Hy.
  destruct v; now apply isna_add_r.
Qed.

Lemma severity_of_isnull {T} (r : row T number) (v : number) :
  v ∈ [pm2_5 r; pm10 r; nitrogen_dioxide r; sulphur_dioxide r;
       carbon_monoxide r; ozone r] ->
  isnull v = true -> isnull (severity_of r) = true.
Proof.
  intros Hv Hna. unfold severity_of.
  repeat (apply elem_of_cons in Hv as [->|Hv]); [..|inversion Hv];
    auto 10 using isnull_times, isnull_plus_l, isnull_plus_r.
Qed.

End TransformFacts.


Section StagedRows.

Context `{Pandas}.

Lemma forallb_false {A} (f : A -> bool) (l : list A) :
  forallb f l = false <-> exists x, x ∈ l /\ f x = false.
Proof.
  induction l as [|a l IH]; cbn.
  - split; [discriminate|]. intros (x & Hx & _). inversion Hx.
  - rewrite andb_false_iff, IH. split.
    + intros [Ha|(x & Hx & Hf)].
      * exists a. split; [apply list_elem_of_here|assumption].
      * exists x. split; [now apply list_elem_of_further|assumption].
    + intros (x & [->|Hx]%elem_of_cons & Hf); [now left|right; eauto].
Qed.

(** A row survives [dropna] exactly when one of the seven numeric cells
    is present. *)
Lemma dropna_all_spec {T} (df : list (row T number)) r :
  r ∈ dropna_all df <-> r ∈ df /\ exists x, x ∈ num_cols r /\ isnull x = false.
Proof.
  unfold dropna_all.
  rewrite !list_elem_of_In, filter_In, negb_true_iff, forallb_false.
  reflexivity.
Qed.

(** In particular a present pollutant keeps the row. *)
Lemma dropna_all_keeps_pollutant {T} (df : list (row T number)) r x :
  r ∈ df ->
  x ∈ [pm2_5 r; pm10 r; carbon_monoxide r; nitrogen_dioxide r;
       sulphur_dioxide r; ozone r] ->
  isnull x = false -> r ∈ dropna_all df.
Proof.
  intros Hr Hx Hna. apply dropna_all_spec. split; [assumption|].
  exists x. split; [|assumption]. unfold num_cols.
  repeat (apply elem_of_cons in Hx as [->|Hx]); [..|inversion Hx];
    repeat first [apply list_elem_of_here | apply list_elem_of_further].
Qed.

Lemma dropna_all_app {T} (df df' : list (row T number)) :
  dropna_all (df ++ df') = dropna_all df ++ dropna_all df'.
Proof. apply List.filter_app. Qed.

(** The staged dataset is the concatenation, file by file, of the rows
    each file contributes. *)
Lemma staged_by_file (df : list (row json_cell json_cell))
  (read_time : json_cell -> option datetime) (raw_files : list raw_file) :
  engineer <$> dropna_all (convert df read_time <$> (raw_files ≫= rows_of_file))
  = raw_files ≫= staged_of_file df read_time.
Proof.
  induction raw_files as [|f fs IH]; [reflexivity|].
  cbn [mbind list_bind]. rewrite fmap_app, dropna_all_app, fmap_app, IH.
  reflexivity.
Qed.

Lemma staged_of_file_city (df : list (row json_cell json_cell))
  (read_time : json_cell -> option datetime) (file : raw_file) r :
  r ∈ staged_of_file df read_time file ->
  city (observed r) = city_of (file_name file).
Proof.
  unfold staged_of_file.
  intros (o & -> & Ho)%list_elem_of_fmap.
  apply dropna_all_spec in Ho as [Ho _].
  apply list_elem_of_fmap in Ho as (raw & -> & Hraw).
  unfold rows_of_file in Hraw. destruct (data file !! "hourly"); [|inversion Hraw].
  unfold zip_rows in Hraw.
  apply list_elem_of_fmap in Hraw as ([t [? [? [? [? [? [? ?]]]]]]] & -> & _).
  reflexivity.
Qed.

End StagedRows.

(** C3. On a reading whose six pollutant cells are all null while uv_index
    is present, [transform_data] stages the row: it is not discarded, though
    every pollutant of the staged row is missing. *)
Theorem uv_only_row_is_staged :
  exists r,
    transform_data (H := sample_pandas) [uv_only_file] = Staged [r] /\
    forallb isnull
      [pm2_5 (observed r); pm10 (observed r); carbon_monoxide (observed r);
       nitrogen_dioxide (observed r); sulphur_dioxide (observed r);
       ozone (observed r)] = true /\
    isnull (uv_index (observed r)) = false.
Proof. eexists. split; [vm_compute; reflexivity|]. split; reflexivity. Qed.

(* ===================================================================== *)
(** ** The city of a file *)
(* ===================================================================== *)

Section CityOfName.

Variable sep : ascii.

Lemma split_head (s : string) :
  split sep s !! 0%nat = Some (before_first sep s).
Proof.
  induction s as [|c s IH]; [reflexivity|]. cbn -[Ascii.eqb].
  destruct (Ascii.eqb c sep); [reflexivity|].
  destruct (split sep s); [discriminate|].
  cbn in *. congruence.
Qed.

(** What follows the first separator does not count. *)
Lemma before_first_app (s rest : string) :
  before_first sep (s ++ String sep rest)%string = before_first sep s.
Proof.
  induction s as [|c s IH].
  - change (before_first sep (String sep rest) = EmptyString).
    cbn -[Ascii.eqb]. now rewrite Ascii.eqb_refl.
  - change (before_first sep (String c (s ++ String sep rest))
            = before_first sep (String c s)).
    cbn -[Ascii.eqb]. destruct (Ascii.eqb c sep); [reflexivity|].
    now rewrite IH.
Qed.

Lemma before_first_id (s : string) :
  contains sep s = false -> before_first sep s = s.
Proof.
  induction s as [|c s IH]; cbn -[Ascii.eqb]; [reflexivity|].
  destruct (Ascii.eqb c sep); [discriminate|]. cbn -[Ascii.eqb]. intros ?. now rewrite IH.
Qed.

Lemma before_first_length (s : string) :
  contains sep s = true ->
  (String.length (before_first sep s) < String.length s)%nat.
Proof.
  induction s as [|c s IH]; cbn -[Ascii.eqb]; [discriminate|].
  destruct (Ascii.eqb c sep); cbn -[Ascii.eqb]; [lia|]. intros Hs%IH. lia.
Qed.

Lemma before_first_cut (s : string) :
  contains sep s = true ->
  exists rest, s = (before_first sep s ++ String sep rest)%string.
Proof.
  induction s as [|c s IH]; cbn -[Ascii.eqb]; [discriminate|].
  destruct (Ascii.eqb_spec c sep) as [->|Hc]; cbn -[Ascii.eqb].
  - intros _. now exists s.
  - intros [rest Hrest]%IH. exists rest.
    change (String c s
            = String c (before_first sep s ++ String sep rest)%string).
    now rewrite <- Hrest.
Qed.

End CityOfName.

Lemma city_of_before_first (name : string) :
  city_of name = before_first "_" name.
Proof. unfold city_of. now rewrite split_head. Qed.

Section CityFacts.

Context `{Pandas}.

(** C10. The rows of the staged dataset come file by file (each file's
    rows converted with the columns of the whole frame), and every row
    that comes from a file carries as city the part of the file's name
    before the first underscore.  For the name extract.py gives the file
    of a configured city, that part is the city up to its own first
    underscore: the whole city when it has none, a strictly shorter
    prefix of it when it has one. *)
Theorem city_from_file_name (raw_files : list raw_file) rows :
  transform_data raw_files = Staged rows ->
  (let all_rows := raw_files ≫= rows_of_file in
   exists read_time,
     to_datetime (time <$> all_rows) = inr read_time /\
     rows = raw_files ≫= staged_of_file all_rows read_time) /\
  (forall df read_time file r,
      r ∈ staged_of_file df read_time file ->
      city (observed r) = before_first "_" (file_name file)) /\
  (forall configured timestamp,
      let recovered := before_first "_" (Extract.raw_name configured timestamp) in
      recovered = before_first "_" configured /\
      (contains "_" configured = false -> recovered = configured) /\
      (contains "_" configured = true ->
         recovered <> configured /\
         exists rest, configured = (recovered ++ String "_" rest)%string)).
Proof.
  intros Hrun. split; [|split].
  - destruct (transform_data_staged _ _ Hrun) as (read_time & Hread & ->).
    exists read_time. split; [exact Hread|]. apply staged_by_file.
  - intros df read_time file r Hr. rewrite <- city_of_before_first.
    now apply (staged_of_file_city df read_time).
  - intros configured timestamp recovered.
    assert (Hrec : recovered = before_first "_" configured)
      by apply (before_first_app "_" configured
                  ("raw_" ++ timestamp ++ ".json")%string).
    split; [exact Hrec|]. rewrite Hrec. split.
    + apply before_first_id.
    + intros E. split; [|now apply before_first_cut].
      intros Heq. apply before_first_length in E. rewrite Heq in E. lia.
Qed.

End CityFacts.

(** On [sample_file] the staged row is attributed to "Delhi"; a city
    configured as "New_Delhi" would come back as "New". *)
Lemma city_from_file_name_witness :
  (exists r,
      transform_data (H := sample_pandas) [sample_file] = Staged [r] /\
      city (observed r) = "Delhi") /\
  before_first "_" (Extract.raw_name "New_Delhi" "20240101_000000") = "New".
Proof.
  pose proof (city_from_file_name (H := sample_pandas) [sample_file] _ eq_refl)
    as (Hrows & Hcity & Hname).
  split.
  - eexists. split; [reflexivity|].
    rewrite (Hcity (rows_of_file sample_file)
               (fun c => match c with JString s => Some s | _ => None end)
               sample_file); [reflexivity|].
    apply list_elem_of_here.
  - destruct (Hname "New_Delhi" "20240101_000000") as [-> _]. reflexivity.
Defined.

(* ===================================================================== *)
(** ** load.py *)
(* ===================================================================== *)

Module LoadFacts.

Import Load.
Local Open Scope nat_scope.

(** The starts of the batches grow. *)
Lemma multiples_split (b : nat) (m a : nat) (l1 l2 : list nat) x y :
  0 < b ->
  (fun i => i * b) <$> seq a m = l1 ++ l2 ->
  x ∈ l1 -> y ∈ l2 -> x < y.
Proof.
  intros Hb. revert a l1.
  induction m as [|m IH]; intros a l1 Heq Hx Hy; cbn in Heq.
  - symmetry in Heq. apply app_eq_nil in Heq as [-> _]. inversion Hx.
  - destruct l1 as [|z l1]; [inversion Hx|].
    injection Heq as <- Heq.
    apply elem_of_cons in Hx as [->|Hx]; [|exact (IH _ _ Heq Hx Hy)].
    assert (Hy' : y ∈ (fun i => i * b) <$> seq (S a) m)
      by (rewrite Heq; apply elem_of_app; now right).
    apply list_elem_of_fmap in Hy' as (j & -> & Hj).
    apply list_elem_of_In, in_seq in Hj. nia.
Qed.

Lemma range_step_split (total : nat) before start after later :
  range_step total batch_size = before ++ start :: after ->
  later ∈ after -> start < later.
Proof.
  unfold range_step. intros Heq Hlater.
  rewrite (assoc_L (++) before [start] after : before ++ start :: after
                                               = (before ++ [start]) ++ after)
    in Heq.
  eapply (multiples_split batch_size); [|exact Heq| |exact Hlater].
  - unfold batch_size. lia.
  - apply elem_of_app. right. apply list_elem_of_here.
Qed.

(** The batches cover the rows, in order. *)
Lemma slices_cover {A} (rows : list A) (b n : nat) :
  (seq 0 n ≫= fun i => slice (i * b) (Nat.min (i * b + b) (length rows)) rows)
  = take (n * b) rows.
Proof.
  induction n as [|n IH]; [reflexivity|].
  rewrite seq_S, bind_app, IH. cbn [mbind list_bind]. rewrite app_nil_r.
  unfold slice. rewrite take_take_drop.
  destruct (Nat.le_gt_cases (n * b + b) (length rows)) as [Hle|Hgt].
  - f_equal. lia.
  - rewrite !take_ge by (rewrite ?Nat.min_r by lia; lia). reflexivity.
Qed.

Lemma batches_cover {A} (rows : list A) :
  (range_step (length rows) batch_size ≫=
     fun start => slice start (Nat.min (start + batch_size) (length rows)) rows)
  = rows.
Proof.
  unfold range_step. rewrite list_fmap_bind.
  etransitivity; [apply (slices_cover rows batch_size)|].
  apply take_ge. unfold batch_size.
  pose proof (Nat.div_mod_eq (length rows + 200 - 1) 200).
  pose proof (Nat.mod_upper_bound (length rows + 200 - 1) 200). lia.
Qed.

Section Run.

Context {record : Type}.
Variable insert_raises : nat -> option string.

Lemma upload_spec (left attempts : nat) (batch : list record) start stop
  (w : world record) :
  exists evs,
    trace (upload insert_raises left attempts batch start stop w).2
      = trace w ++ evs /\
    Forall (of_batch start stop) evs /\
    table (upload insert_raises left attempts batch start stop w).2
      = table w ++
          (if (upload insert_raises left attempts batch start stop w).1
           then batch else []).
Proof.
  revert attempts w. induction left as [|left IH]; intros attempts w.
  - exists []. cbn. now rewrite !app_nil_r.
  - cbn. unfold bind, insert.
    destruct (insert_raises (calls w)) as [e|]; cbn.
    + match goal with |- context [upload _ left ?a _ _ _ ?w'] =>
        destruct (IH a w') as (evs & Ht & Hevs & Htab) end.
      cbn in Ht, Htab.
      exists (Insert start stop :: Retry (attempts + 1) start stop
                :: Error e :: Sleep 2 :: evs).
      split; [|split].
      * rewrite Ht. now rewrite <- !app_assoc.
      * repeat constructor; assumption.
      * exact Htab.
    + exists [Insert start stop; Uploaded start stop].
      split; [|split].
      * now rewrite <- !app_assoc.
      * repeat constructor.
      * reflexivity.
Qed.

Lemma upload_batches_cons start later (rows : list record) total w :
  upload_batches insert_raises (start :: later) rows total w =
  let stop := Nat.min (start + batch_size) total in
  let r := upload insert_raises 3 0 (slice start stop rows) start stop w in
  if r.1 then upload_batches insert_raises later rows total r.2
  else emit (CouldNot start stop) r.2.
Proof.
  cbn [upload_batches]. unfold bind.
  destruct (upload _ _ _ _ _ _ _) as [[] w1]; reflexivity.
Qed.

(** The loop over the batches: it uploads them all, or it stops at the
    first batch that used up its attempts. *)
Lemma upload_batches_spec (starts : list nat) (rows : list record) total w :
  exists evs,
    trace (upload_batches insert_raises starts rows total w).2
      = trace w ++ evs /\
    Forall (fun e => e <> Completed) evs /\
    ((Forall (fun e => is_could_not e = false) evs /\
      table (upload_batches insert_raises starts rows total w).2
        = table w ++
            (starts ≫= fun start =>
               slice start (Nat.min (start + batch_size) total) rows))
     \/
     (exists before start after,
         starts = before ++ start :: after /\
         last evs = Some (CouldNot start (Nat.min (start + batch_size) total)) /\
         (forall a b, CouldNot a b ∈ evs -> a = start) /\
         (forall a b, Insert a b ∈ evs -> a ∈ before ++ [start]))).
Proof.
  revert w. induction starts as [|start later IH]; intros w.
  - exists []. cbn. rewrite !app_nil_r. split; [reflexivity|].
    split; [constructor|]. left. split; [constructor|reflexivity].
  - rewrite upload_batches_cons. cbv zeta.
    set (stop := Nat.min (start + batch_size) total).
    set (batch := slice start stop rows).
    destruct (upload_spec 3 0 batch start stop w) as (evs & Ht & Hevs & Htab).
    destruct (upload insert_raises 3 0 batch start stop w) as [ok w1].
    cbn [fst snd] in *. destruct ok.
    + destruct (IH w1) as (evs' & Ht' & Hnc & Hcases).
      exists (evs ++ evs'). rewrite Ht', Ht, <- app_assoc.
      split; [reflexivity|]. split.
      { apply Forall_app. split; [|assumption].
        eapply Forall_impl; [exact Hevs|]. now intros [] ?. }
      destruct Hcases
        as [[Hq Htab']|(before & s & after & -> & Hlast & Hcn & Hins)].
      * left. split.
        { apply Forall_app. split; [|assumption].
          eapply Forall_impl; [exact Hevs|]. now intros [] ?. }
        rewrite Htab', Htab. cbn [mbind list_bind]. fold batch.
        now rewrite <- app_assoc.
      * right. exists (start :: before), s, after. split; [reflexivity|].
        split.
        { rewrite last_app, Hlast. reflexivity. }
        split.
        { intros a b [Hin|Hin]%elem_of_app; [|eauto].
          rewrite Forall_forall in Hevs. now apply Hevs in Hin. }
        intros a b [Hin|Hin]%elem_of_app.
        -- rewrite Forall_forall in Hevs. apply Hevs in Hin as [-> _].
           apply list_elem_of_here.
        -- apply list_elem_of_further. eauto.
    + exists (evs ++ [CouldNot start stop]). cbn. unfold emit, bind. cbn.
      rewrite Ht, <- app_assoc. split; [reflexivity|]. split.
      { apply Forall_app. split; [|repeat constructor; discriminate].
        eapply Forall_impl; [exact Hevs|]. now intros [] ?. }
      right. exists [], start, later. split; [reflexivity|]. split.
      { now rewrite last_snoc. }
      split.
      { intros a b [Hin|Hin]%elem_of_app.
        - rewrite Forall_forall in Hevs. now apply Hevs in Hin.
        - apply list_elem_of_singleton in Hin. congruence. }
      intros a b [Hin|Hin]%elem_of_app.
      * rewrite Forall_forall in Hevs. apply Hevs in Hin as [-> _].
        apply list_elem_of_here.
      * apply list_elem_of_singleton in Hin. discriminate.
Qed.

(** A whole run: it returns, its trace is the first line, what the
    batch loop did and the last line; the loop has uploaded every row,
    or it has stopped at a batch. *)
Lemma load_data_spec (rows : list record) :
  exists evs w,
    load_data insert_raises (Frame rows) initial = (inr tt, w) /\
    trace w = Uploading (length rows) :: evs ++ [Completed] /\
    ((Forall (fun e => is_could_not e = false) evs /\ table w = rows)
     \/
     (exists before start after,
         range_step (length rows) batch_size = before ++ start :: after /\
         (exists stop, CouldNot start stop ∈ evs) /\
         (forall a b, CouldNot a b ∈ evs -> a = start) /\
         (forall a b, Insert a b ∈ evs -> a ∈ before ++ [start]))).
Proof.
  destruct (upload_batches_spec (range_step (length rows) batch_size) rows
              (length rows) (emit (Uploading (length rows)) initial).2)
    as (evs & Ht & _ & Hcases).
  unfold load_data, bind. cbn [emit fst snd] in *.
  destruct (upload_batches _ _ _ _ _) as [[] w1]. cbn [fst snd] in *.
  exists evs. eexists. split; [reflexivity|]. cbn [trace table].
  split; [now rewrite Ht|].
  destruct Hcases
    as [[Hq Htab]|(before & s & after & Heq & Hlast & Hcn & Hins)].
  - left. split; [assumption|]. rewrite Htab. apply batches_cover.
  - right. exists before, s, after.
    apply last_Some_elem_of in Hlast. eauto 6.
Qed.

End Run.

(** C2, as the code has it.  When a batch has used its three attempts
    and is reported as not uploaded, the loader leaves the batch loop: the
    batches after it in the partition of the staged rows are never sent
    to the store. *)
Theorem load_stops_after_failed_batch {record : Type}
  (insert_raises : nat -> option string) (rows : list record)
  (start stop : nat) :
  CouldNot start stop ∈ trace (load_data insert_raises (Frame rows) initial).2 ->
  exists before after,
    range_step (length rows) batch_size = before ++ start :: after /\
    forall later, later ∈ after ->
      start < later /\
      forall stop',
        Insert later stop'
          ∉ trace (load_data insert_raises (Frame rows) initial).2.
Proof.
  destruct (load_data_spec insert_raises rows)
    as (evs & w & -> & Ht & Hcases).
  cbn [snd]. rewrite Ht. intros Hcn.
  assert (Hcn' : CouldNot start stop ∈ evs).
  { apply elem_of_cons in Hcn as [?|Hcn]; [discriminate|].
    apply elem_of_app in Hcn as [?|Hcn]; [assumption|].
    apply list_elem_of_singleton in Hcn. discriminate. }
  destruct Hcases as [[Hq _]|(before & s & after & Heq & _ & Hone & Hins)].
  - rewrite Forall_forall in Hq. apply Hq in Hcn'. discriminate.
  - apply Hone in Hcn' as ->. exists before, after. split; [assumption|].
    intros later Hlater. split; [eapply range_step_split; eassumption|].
    intros stop' Hin.
    assert (Hin' : Insert later stop' ∈ evs).
    { apply elem_of_cons in Hin as [?|Hin]; [discriminate|].
      apply elem_of_app in Hin as [?|Hin]; [assumption|].
      apply list_elem_of_singleton in Hin. discriminate. }
    apply Hins in Hin'.
    enough (later < later) by lia.
    refine (multiples_split batch_size _ 0 (before ++ [s]) after later later
              _ _ Hin' Hlater); [unfold batch_size; lia|].
    unfold range_step in Heq. rewrite Heq.
    now rewrite <- app_assoc.
Qed.

(** C7, as the code has it.  A load run gives no report: when it does
    not raise, its value is [None], with no count of uploaded rows and no
    list of failed batches.  When no batch was reported as not uploaded,
    every staged row is in the table, in order, and the run ends with its
    line of success. *)
Theorem load_gives_no_report {record : Type}
  (insert_raises : nat -> option string) (rows : list record) :
  let run := load_data insert_raises (Frame rows) initial in
  run.1 = inr tt /\
  ((forall start stop, CouldNot start stop ∉ trace run.2) ->
   table run.2 = rows /\ last (trace run.2) = Some Completed).
Proof.
  destruct (load_data_spec insert_raises rows)
    as (evs & w & -> & Ht & Hcases).
  cbn [fst snd]. split; [reflexivity|]. intros Hnone. split.
  - destruct Hcases as [[_ Htab]|(before & s & after & _ & [b Hb] & _)];
      [assumption|].
    destruct (Hnone s b). rewrite Ht.
    apply list_elem_of_further, elem_of_app. now left.
  - rewrite Ht, app_comm_cons. apply last_snoc.
Qed.

(** Two batches, a store that refuses every insert: the first batch is
    tried three times and given up, the second batch is never sent. *)
Lemma failed_batch_ends_the_loop :
  let run := load_data always_raises (Frame (replicate 201 tt)) initial in
  batches 201 = [(0, 200); (200, 201)] /\
  List.filter is_could_not (trace run.2) = [CouldNot 0 200] /\
  List.filter is_insert (trace run.2)
    = [Insert 0 200; Insert 0 200; Insert 0 200].
Proof. vm_compute. repeat split. Qed.

Lemma load_stops_after_failed_batch_witness :
  exists before after,
    range_step 201 batch_size = before ++ 0 :: after /\
    forall later, later ∈ after ->
      0 < later /\
      forall stop',
        Insert later stop'
          ∉ trace (load_data always_raises (Frame (replicate 201 tt)) initial).2.
Proof.
  apply (load_stops_after_failed_batch always_raises (replicate 201 tt) 0 200).
  apply list_elem_of_In. vm_compute. tauto.
Defined.

(** The same run returns as any other and ends with the line of success,
    with no row in the table and a batch given up. *)
Lemma failed_load_ends_as_success :
  let run := load_data always_raises (Frame (replicate 201 tt)) initial in
  run.1 = inr tt /\
  table run.2 = [] /\
  List.filter is_could_not (trace run.2) = [CouldNot 0 200] /\
  last (trace run.2) = Some Completed.
Proof. vm_compute. repeat split. Qed.

Lemma load_gives_no_report_witness :
  table (load_data (fun _ => None) (Frame (replicate 201 tt)) initial).2
  = replicate 201 tt.
Proof.
  destruct (load_gives_no_report (fun _ => None) (replicate 201 tt))
    as [_ Hall].
  apply Hall. intros start stop Hin%list_elem_of_In.
  vm_compute in Hin. repeat destruct Hin as [Hin|Hin]; try discriminate.
  exact Hin.
Defined.

End LoadFacts.

(* ===================================================================== *)
(** ** etl_analysis.py *)
(* ===================================================================== *)

Module AnalysisFacts.

Import Analysis.

Section Run.

Context {record datetime : Type}.
Variable keys : record -> list string.
Variable to_frame : list record -> exception + list record.
Variable compute_kpis : list record -> exception + (kpi_summary * list risk_row).
Variable export_trends : list record -> exception + list (trend_row datetime).
Variable make_plots : list record -> option exception.

Lemma fetch_no_rows (data : option (list record)) :
  default [] data = [] -> fetch_table_as_df to_frame (QueryData data) = inr [].
Proof. destruct data as [[|]|]; cbn; [reflexivity|discriminate|reflexivity]. Qed.

(** C9, as the code has it.  When the table read back has no row ([data]
    is [None] or the empty list), [main] does not raise; it prints the line
    that no data was found and returns at once: no KPI summary, no risk
    distribution and no trend table are computed or saved. *)
Theorem no_rows_no_outputs (data : option (list record)) :
  default [] data = [] ->
  let run := main keys to_frame compute_kpis export_trends make_plots
               (QueryData data) in
  run.1 = inr tt /\
  run.2 = [NoData] /\
  summaries run.2 = [] /\ distributions run.2 = [] /\ trend_tables run.2 = [].
Proof.
  intros Hrows run. subst run. unfold main.
  rewrite (fetch_no_rows data Hrows). cbn. repeat split.
Qed.

End Run.

(** A table without rows: the run yields no summary at all, where the
    summary with every field null was expected, and no sequence, where two
    empty ones were. *)
Lemma no_rows_yield_no_summary :
  let run := main city_only as_it_is no_kpis no_trends no_plots
               (QueryData (Some [])) in
  run.2 = [NoData] /\
  summaries run.2 = [] /\ distributions run.2 = [] /\ trend_tables run.2 = [].
Proof. repeat split. Qed.

Lemma no_rows_no_outputs_witness :
  main city_only as_it_is no_kpis no_trends no_plots (QueryData None)
  = (inr tt, [NoData]).
Proof.
  destruct (no_rows_no_outputs city_only as_it_is no_kpis no_trends no_plots
              None eq_refl)
    as (Hres & Hout & _).
  apply injective_projections; assumption.
Defined.

End AnalysisFacts.

(* ===================================================================== *)
(** ** run_pipeline.py *)
(* ===================================================================== *)

Module PipelineFacts.

Import Pipeline.

Section Run.

Variable does : stage -> behaviour.
Variable clock : nat -> float64.
Variable round2 : float64 -> float64.

(** One step, by what its function does. *)
Lemma run_step_spec (name : string) (s : stage) (w : world) :
  run_step does clock round2 name s w =
  match does s with
  | Returns =>
      (inr tt,
       {| clock_reads := S (S (clock_reads w));
          trace := trace w ++
            [Starting name; Call s;
             Completed name
               (round2 (clock (S (clock_reads w)) - clock (clock_reads w))%f64)] |})
  | Raises e stack =>
      (inl (SystemExit ("⛔ Pipeline stopped at: " ++ name)),
       {| clock_reads := S (clock_reads w);
          trace := trace w ++
            [Starting name; Call s; ErrorIn name e; Traceback stack] |})
  | RaisesBase e =>
      (inl (Uncaught e),
       {| clock_reads := S (clock_reads w);
          trace := trace w ++ [Starting name; Call s] |})
  end.
Proof.
  unfold run_step, call, time_time, emit, bind, ret. cbn.
  destruct (does s); cbn; rewrite <- ?app_assoc; reflexivity.
Qed.

Ltac run_main :=
  unfold main, and_then, bind, emit, ret; cbn [trace clock_reads initial];
  repeat (rewrite run_step_spec;
          match goal with
          | |- context [does ?s] =>
              let E := fresh "E" in destruct (does s) eqn:E
          end; cbn [trace clock_reads fst snd app]).

(** C8, as the code has it.  The step functions are called in the order
    extract, transform, load, analysis, each after the one before it has
    returned, and none after a step that has not returned.  When a step
    raises an exception, the run prints the name of the step with the
    error, then the stack trace, and leaves with [SystemExit] naming the
    step; no elapsed time is printed for that step. *)
Theorem pipeline_order_and_halt :
  let run := main does clock round2 initial in
  called (trace run.2) = through_first_failure does stages /\
  ((forall s, s ∈ stages -> does s = Returns) -> run.1 = inr tt) /\
  (forall s e stack,
      s ∈ called (trace run.2) -> does s = Raises e stack ->
      run.1 = inl (SystemExit ("⛔ Pipeline stopped at: " ++ step_name s)) /\
      [Call s; ErrorIn (step_name s) e; Traceback stack]
        `suffix_of` trace run.2 /\
      step_name s ∉ timed (trace run.2)).
Proof.
  cbv zeta. split; [|split].
  - unfold stages, through_first_failure. run_main;
      rewrite ?E, ?E0, ?E1, ?E2; reflexivity.
  - intros Hall. run_main; try reflexivity;
      match goal with
      | E : does ?s = Raises _ _ |- _ => rewrite Hall in E
      | E : does ?s = RaisesBase _ |- _ => rewrite Hall in E
      end; try discriminate; unfold stages;
      repeat first [apply list_elem_of_here | apply list_elem_of_further].
  - intros s e stack. run_main; cbn; intros Hs Hd;
      repeat (apply elem_of_cons in Hs as [->|Hs]);
      try (inversion Hs; fail);
      try congruence;
      (split; [|split]);
      try (cbn; congruence).
    all: try (replace e with e0 by congruence;
              replace stack with stack0 by congruence;
              repeat first [reflexivity | apply suffix_cons_r]).
    all: cbn; rewrite ?elem_of_cons, elem_of_nil; intuition discriminate.
Qed.

End Run.

(** A run in which the transform step raises, with a clock that advances
    by one second at each reading: the run prints the elapsed time of the
    extract step, which returned, and none for the transform step. *)
Lemma failed_step_prints_no_elapsed_time :
  let run := main transform_fails (fun n => #(Z.of_nat n)%f64) id initial in
  run.1 = inl (SystemExit "⛔ Pipeline stopped at: Transform Step") /\
  trace run.2 =
    [Banner;
     Starting "Extract Step"; Call extract_air_quality;
     Completed "Extract Step" #1%f64;
     Starting "Transform Step"; Call transform_data;
     ErrorIn "Transform Step" (KeyError "time");
     Traceback "Traceback (most recent call last): ..."] /\
  timed (trace run.2) = ["Extract Step"].
Proof. vm_compute. repeat split. Qed.

Lemma pipeline_order_and_halt_witness :
  let run := main transform_fails (fun n => #(Z.of_nat n)%f64) id initial in
  called (trace run.2) = [extract_air_quality; transform_data] /\
  run.1 = inl (SystemExit "⛔ Pipeline stopped at: Transform Step").
Proof.
  destruct (pipeline_order_and_halt transform_fails
              (fun n => #(Z.of_nat n)%f64) id) as (Hcalled & _ & Hraise).
  split; [exact Hcalled|].
  refine (proj1 (Hraise transform_data _ _ _ eq_refl)).
  rewrite Hcalled. apply list_elem_of_further, list_elem_of_here.
Defined.

End PipelineFacts.

(* ===================================================================== *)
(** ** extract.py *)
(* ===================================================================== *)

Module ExtractFacts.

Import Extract.

Lemma count_app p (t t' : list event) :
  count p (t ++ t') = (count p t + count p t')%nat.
Proof. unfold count. now rewrite List.filter_app, length_app. Qed.

Lemma outcome_report city r report :
  outcome city r = inr report ->
  is_failure report = true /\ is_get report = false.
Proof.
  destruct r as [m|code [|d]]; cbn; [| destruct (code =? 200)%Z.. ];
    intros [= <-] || discriminate; repeat split.
Qed.

Lemma range_length (lo hi : Z) : length (range lo hi) = Z.to_nat (hi - lo).
Proof. unfold range. now rewrite length_fmap, length_seq. Qed.

Lemma range_first (hi : Z) :
  1 <= hi ->
  exists later, range 1 (hi + 1) = 1 :: later /\ Forall (fun a => a <> 1) later.
Proof.
  intros Hhi. unfold range.
  replace (hi + 1 - 1) with hi by lia.
  destruct (Z.to_nat hi) as [|n] eqn:E; [lia|].
  cbn [seq fmap list_fmap]. eexists. split; [reflexivity|].
  apply Forall_fmap, Forall_forall. intros i Hi%list_elem_of_In%in_seq. cbn. lia.
Qed.

Section Run.

Variable cfg : config.
Variable net : network.

Lemma fetch_attempts_cons attempt later url city w :
  fetch_attempts cfg net (attempt :: later) url city w =
  let said := trace w ++ [Fetching city attempt (MAX_RETRIES cfg);
                          Get url (TIMEOUT cfg)] in
  match outcome city (http net (requests w) url) with
  | inl document =>
      (document,
       {| requests := S (requests w); clock_reads := clock_reads w;
          trace := said |})
  | inr report =>
      fetch_attempts cfg net later url city
        {| requests := S (requests w); clock_reads := clock_reads w;
           trace := said ++ [report; Sleep #1%f64] |}
  end.
Proof.
  cbn [fetch_attempts]. unfold bind, emit, requests_get, ret, outcome.
  cbn [requests clock_reads trace].
  destruct (http net (requests w) url) as [m|code [|d]];
    [| destruct (code =? 200)%Z.. ];
    cbn [requests clock_reads trace]; rewrite <- ?app_assoc; reflexivity.
Qed.

(** The events of an attempt that failed, before those of the later
    attempts. *)
Lemma failed_attempt_counts city attempt url report evs :
  is_failure report = true -> is_get report = false ->
  let evs' := Fetching city attempt (MAX_RETRIES cfg) :: Get url (TIMEOUT cfg)
                :: report :: Sleep #1%f64 :: evs in
  count is_get evs' = S (count is_get evs) /\
  count is_failure evs' = S (count is_failure evs).
Proof.
  intros Hfail Hget. unfold count. cbn. rewrite Hget, Hfail. split; reflexivity.
Qed.

(** The retry loop over the attempts that are left.  It sends one request
    per attempt it makes, all to the same address and each taking the next
    answer of the service; each failure is followed by the sleep; the
    attempts go on exactly as long as the answers are failures: either
    every attempt was made and failed, and the result is [None] after the
    line that says so, or the last request made is the first that did not
    fail, and its value is the result. *)
Lemma fetch_attempts_spec attempts url city w :
  let run := fetch_attempts cfg net attempts url city w in
  exists evs,
    trace run.2 = trace w ++ evs /\
    clock_reads run.2 = clock_reads w /\
    requests run.2 = (requests w + count is_get evs)%nat /\
    (count is_get evs <= length attempts)%nat /\
    Forall (fun e => is_get e = true -> e = Get url (TIMEOUT cfg)) evs /\
    backoff_after_failure evs = true /\
    (forall i, (i < count is_failure evs)%nat ->
       fails city (http net (requests w + i)%nat url) = true) /\
    ((count is_get evs = length attempts /\
      count is_failure evs = length attempts /\
      run.1 = None /\
      last evs = Some (FetchFailed city (MAX_RETRIES cfg)))
     \/
     (count is_get evs = S (count is_failure evs) /\
      outcome city (http net (requests w + count is_failure evs)%nat url)
      = inl run.1)) /\
    cities_started evs =
      omap (fun a : Z => if (a =? 1)%Z then Some city else None)
        (take (count is_get evs) attempts).
Proof.
  cbv zeta. revert w. induction attempts as [|attempt later IH]; intros w.
  - exists [FetchFailed city (MAX_RETRIES cfg)]. cbn.
    repeat split; try lia.
    + repeat constructor. discriminate.
    + left. repeat split.
  - rewrite fetch_attempts_cons. cbv zeta.
    destruct (outcome city (http net (requests w) url))
      as [document|report] eqn:E.
    + exists [Fetching city attempt (MAX_RETRIES cfg); Get url (TIMEOUT cfg)].
      cbn. repeat split; try lia.
      * repeat constructor. discriminate.
      * right. split; [reflexivity|]. now rewrite Nat.add_0_r.
    + pose proof E as (Hfail & Hget)%outcome_report.
      match goal with |- context [fetch_attempts _ _ later _ _ ?w'] =>
        destruct (IH w')
          as (evs & Ht & Hc & Hr & Hle & Hall & Hb & Hfails & Hend & Hs)
      end.
      cbn [trace clock_reads requests] in Ht, Hc, Hr, Hfails, Hend.
      destruct (failed_attempt_counts city attempt url report evs Hfail Hget)
        as [Hg Hf].
      exists (Fetching city attempt (MAX_RETRIES cfg) :: Get url (TIMEOUT cfg)
                :: report :: Sleep #1%f64 :: evs).
      rewrite Hg, Hf. cbn [length].
      split; [rewrite Ht, <- !app_assoc; reflexivity|].
      split; [assumption|].
      split; [lia|]. split; [lia|].
      split.
      { constructor; [discriminate|]. constructor; [reflexivity|].
        constructor; [congruence|]. constructor; [discriminate|assumption]. }
      split; [cbn; rewrite Hfail, Hb; reflexivity|].
      split.
      { intros [|i] Hi.
        - rewrite Nat.add_0_r. unfold fails. now rewrite E.
        - replace (requests w + S i)%nat with (S (requests w) + i)%nat by lia.
          apply Hfails. lia. }
      split.
      { destruct Hend as [(Hn & Hm & Hnone & Hlast)|(Hn & Hout)].
        - left. repeat split; try lia; try assumption.
          change (last ([Fetching city attempt (MAX_RETRIES cfg);
                         Get url (TIMEOUT cfg); report; Sleep #1%f64] ++ evs)
                  = Some (FetchFailed city (MAX_RETRIES cfg))).
          now rewrite last_app, Hlast.
        - right. split; [lia|].
          replace (requests w + S (count is_failure evs))%nat
            with (S (requests w) + count is_failure evs)%nat by lia.
          exact Hout. }
      destruct report; try discriminate Hfail;
        unfold cities_started in Hs |- *; cbn [take omap list_omap];
        rewrite Hs; reflexivity.
Qed.

Lemma no_first_attempt (city : string) (attempts : list Z) :
  Forall (fun a => a <> 1) attempts ->
  omap (fun a : Z => if (a =? 1)%Z then Some city else None) attempts = [].
Proof.
  induction 1 as [|a l Ha _ IH]; [reflexivity|]. cbn.
  destruct (Z.eqb_spec a 1); [contradiction|assumption].
Qed.

(** [fetch_with_retry], from any state of the world. *)
Lemma fetch_with_retry_spec url city w :
  let run := fetch_with_retry cfg net url city w in
  exists evs,
    trace run.2 = trace w ++ evs /\
    clock_reads run.2 = clock_reads w /\
    requests run.2 = (requests w + count is_get evs)%nat /\
    (count is_get evs <= Z.to_nat (MAX_RETRIES cfg))%nat /\
    Forall (fun e => is_get e = true -> e = Get url (TIMEOUT cfg)) evs /\
    backoff_after_failure evs = true /\
    (forall i, (i < count is_failure evs)%nat ->
       fails city (http net (requests w + i)%nat url) = true) /\
    ((count is_get evs = Z.to_nat (MAX_RETRIES cfg) /\
      count is_failure evs = Z.to_nat (MAX_RETRIES cfg) /\
      run.1 = None /\
      last evs = Some (FetchFailed city (MAX_RETRIES cfg)))
     \/
     (count is_get evs = S (count is_failure evs) /\
      outcome city (http net (requests w + count is_failure evs)%nat url)
      = inl run.1)) /\
    (1 <= MAX_RETRIES cfg ->
     cities_started evs = [city] /\ (1 <= count is_get evs)%nat).
Proof.
  cbv zeta. unfold fetch_with_retry.
  destruct (fetch_attempts_spec (range 1 (MAX_RETRIES cfg + 1)) url city w)
    as (evs & Ht & Hc & Hr & Hle & Hall & Hb & Hfails & Hend & Hs).
  rewrite range_length in Hle, Hend.
  replace (MAX_RETRIES cfg + 1 - 1) with (MAX_RETRIES cfg) in Hle, Hend by lia.
  exists evs. do 8 (split; [assumption|]).
  intros Hmax.
  assert (Hone : (1 <= count is_get evs)%nat)
    by (destruct Hend as [(Hn & _)|(Hn & _)]; lia).
  split; [|exact Hone]. rewrite Hs.
  destruct (range_first (MAX_RETRIES cfg) Hmax) as (later & Hrange & Hlater).
  rewrite Hrange in *.
  destruct (count is_get evs) as [|n] eqn:En; [lia|].
  cbn. apply f_equal, no_first_attempt, Forall_take, Hlater.
Qed.

Lemma extract_cities_cons city later saved w lat lon :
  CITY_COORDS cfg !! city = Some (lat, lon) ->
  extract_cities cfg net (city :: later) saved w =
  let run := fetch_with_retry cfg net (build_url cfg lat lon) city w in
  match run.1 with
  | None => extract_cities cfg net later saved run.2
  | Some document =>
      let filepath :=
        path_join (RAW_DIR cfg)
          (raw_name city (now net (clock_reads run.2))) in
      let slept :=
        {| requests := requests run.2;
           clock_reads := S (clock_reads run.2);
           trace := trace run.2 ++
                    [WriteFile filepath document; Saved filepath;
                     Sleep (SLEEP_BETWEEN cfg)] |} in
      match sleep_error net (SLEEP_BETWEEN cfg) with
      | Some e => (inl e, slept)
      | None => extract_cities cfg net later (saved ++ [filepath]) slept
      end
  end.
Proof.
  intros Hcoords. cbn [extract_cities]. rewrite Hcoords. unfold bind at 1.
  cbv zeta.
  destruct (fetch_with_retry _ _ _ _ _) as [[document|] w1]; [|reflexivity].
  unfold bind, datetime_now, time_sleep, emit, ret, bind.
  cbn [fst snd requests clock_reads trace].
  rewrite <- !app_assoc. cbn [app].
  destruct (sleep_error net (SLEEP_BETWEEN cfg)); reflexivity.
Qed.

(** The loop over the cities, when each has its coordinates: whatever the
    network answers, it comes to its end, every city having had its first
    attempt and at least one request, unless the sleep after a saved file
    is refused. *)
Lemma extract_cities_spec cities saved w :
  (forall city, city ∈ cities -> is_Some (CITY_COORDS cfg !! city)) ->
  let run := extract_cities cfg net cities saved w in
  exists evs,
    trace run.2 = trace w ++ evs /\
    match run.1 with
    | inr _ =>
        1 <= MAX_RETRIES cfg ->
        cities_started evs = cities /\ (length cities <= count is_get evs)%nat
    | inl e =>
        sleep_error net (SLEEP_BETWEEN cfg) = Some e /\
        exists before path,
          evs = before ++ [Saved path; Sleep (SLEEP_BETWEEN cfg)]
    end.
Proof.
  cbv zeta. revert saved w.
  induction cities as [|city later IH]; intros saved w Hcoords.
  - exists []. cbn. rewrite app_nil_r. auto.
  - destruct (Hcoords city) as [[lat lon] Hc]; [apply list_elem_of_here|].
    rewrite (extract_cities_cons _ _ _ _ _ _ Hc). cbv zeta.
    destruct (fetch_with_retry_spec (build_url cfg lat lon) city w)
      as (evs & Ht & _ & _ & _ & _ & _ & _ & _ & Hs).
    assert (Hlater : forall c, c ∈ later -> is_Some (CITY_COORDS cfg !! c))
      by (intros c Hin; apply Hcoords, list_elem_of_further, Hin).
    destruct (fetch_with_retry _ _ _ _ _) as [[document|] w1];
      cbn [fst snd] in *.
    + set (path := path_join (RAW_DIR cfg)
                     (raw_name city (now net (clock_reads w1)))).
      destruct (sleep_error net (SLEEP_BETWEEN cfg)) as [e|] eqn:Hsleep.
      { exists (evs ++ [WriteFile path document; Saved path;
                        Sleep (SLEEP_BETWEEN cfg)]).
        cbn [fst snd trace]. split; [rewrite Ht, <- app_assoc; reflexivity|].
        split; [reflexivity|].
        exists (evs ++ [WriteFile path document]), path.
        rewrite <- app_assoc. reflexivity. }
      match goal with |- context [extract_cities _ _ later ?s ?w'] =>
        destruct (IH s w' Hlater) as (evs' & Ht' & Hres');
        destruct (extract_cities cfg net later s w') as [[e|saved'] w2]
      end; cbn [fst snd trace] in *.
      * exists (evs ++ [WriteFile path document; Saved path;
                        Sleep (SLEEP_BETWEEN cfg)] ++ evs').
        split; [rewrite Ht', Ht, <- !app_assoc; reflexivity|].
        destruct Hres' as (He & before & p & ->). split; [exact He|].
        exists (evs ++ [WriteFile path document; Saved path;
                        Sleep (SLEEP_BETWEEN cfg)] ++ before), p.
        rewrite <- !app_assoc. reflexivity.
      * exists (evs ++ [WriteFile path document; Saved path;
                        Sleep (SLEEP_BETWEEN cfg)] ++ evs').
        split; [rewrite Ht', Ht, <- !app_assoc; reflexivity|].
        intros Hmax. destruct (Hs Hmax) as [Hs1 Hg1].
        destruct (Hres' Hmax) as [Hs2 Hg2].
        unfold cities_started in *. rewrite !omap_app, Hs1, Hs2.
        split; [reflexivity|].
        rewrite !count_app. cbn [length]. lia.
    + destruct (IH saved w1 Hlater) as (evs' & Ht' & Hres').
      exists (evs ++ evs').
      split; [rewrite Ht', Ht, <- app_assoc; reflexivity|].
      destruct (extract_cities cfg net later saved w1) as [[e|saved'] w2];
        cbn [fst snd] in *.
      * destruct Hres' as (He & before & p & ->). split; [exact He|].
        exists (evs ++ before), p. rewrite <- app_assoc. reflexivity.
      * intros Hmax. destruct (Hs Hmax) as [Hs1 Hg1].
        destruct (Hres' Hmax) as [Hs2 Hg2].
        unfold cities_started in *. rewrite omap_app, Hs1, Hs2.
        split; [reflexivity|]. rewrite count_app. cbn [length]. lia.
Qed.

End Run.

(** C6. For every city the fetcher sends at most [MAX_RETRIES] requests,
    one after the other, all to the city's address, each taking the next
    answer of the service.  Every failed attempt (a response whose status
    is not 200, hence every non-2xx one, or a failure of the request) is
    followed at once by a sleep of one second, and the attempts go on
    exactly as long as the answers are failures: either all [MAX_RETRIES]
    requests were sent and failed, and the fetcher returns [None], a value
    and no exception, after the line that says so; or the last request
    sent is the first that did not fail, and its value is returned.  In
    the extraction loop a city whose fetch gave [None] is passed over and
    the loop goes on with the next city, in the state the fetch left.  With
    coordinates for every configured city, no failure of a fetch ends the
    run: either the loop comes to its end, every configured city having
    had its first attempt, in the configured order, and at least one
    request; or it is [time.sleep] that refuses [SLEEP_BETWEEN], right
    after a file was saved. *)
Theorem fetch_retries_then_next_city (cfg : config) (net : network) :
  (forall url city w,
      let run := fetch_with_retry cfg net url city w in
      exists evs,
        trace run.2 = trace w ++ evs /\
        let sent := count is_get evs in
        let failed := count is_failure evs in
        (sent <= Z.to_nat (MAX_RETRIES cfg))%nat /\
        requests run.2 = (requests w + sent)%nat /\
        Forall (fun e => is_get e = true -> e = Get url (TIMEOUT cfg)) evs /\
        backoff_after_failure evs = true /\
        (forall i, (i < failed)%nat ->
           fails city (http net (requests w + i)%nat url) = true) /\
        ((sent = Z.to_nat (MAX_RETRIES cfg) /\
          failed = Z.to_nat (MAX_RETRIES cfg) /\
          run.1 = None /\
          last evs = Some (FetchFailed city (MAX_RETRIES cfg)))
         \/
         (sent = S failed /\
          outcome city (http net (requests w + failed)%nat url) = inl run.1))) /\
  (forall city lat lon later saved w,
      CITY_COORDS cfg !! city = Some (lat, lon) ->
      (fetch_with_retry cfg net (build_url cfg lat lon) city w).1 = None ->
      extract_cities cfg net (city :: later) saved w
      = extract_cities cfg net later saved
          (fetch_with_retry cfg net (build_url cfg lat lon) city w).2) /\
  ((forall city, city ∈ CITIES cfg -> is_Some (CITY_COORDS cfg !! city)) ->
   forall w,
     let run := extract_air_quality cfg net w in
     exists evs,
       trace run.2 = trace w ++ evs /\
       match run.1 with
       | inr _ =>
           1 <= MAX_RETRIES cfg ->
           cities_started evs = CITIES cfg /\
           (length (CITIES cfg) <= count is_get evs)%nat
       | inl e =>
           sleep_error net (SLEEP_BETWEEN cfg) = Some e /\
           exists before path,
             evs = before ++ [Saved path; Sleep (SLEEP_BETWEEN cfg)]
       end).
Proof.
  split; [|split].
  - intros url city w run.
    destruct (fetch_with_retry_spec cfg net url city w)
      as (evs & Ht & _ & Hr & Hle & Hall & Hb & Hfails & Hend & _).
    exists evs. cbv zeta. auto 10.
  - intros city lat lon later saved w Hc Hnone.
    rewrite (extract_cities_cons _ _ _ _ _ _ _ _ Hc). cbv zeta.
    now rewrite Hnone.
  - intros Hcoords w. apply extract_cities_spec, Hcoords.
Qed.

(** Delhi is given up after three failed attempts, Mumbai is fetched at
    its first attempt and saved. *)
Lemma fetch_retries_then_next_city_witness :
  exists evs,
    trace (extract_air_quality ExtractExample.cfg ExtractExample.net initial).2
      = evs /\
    cities_started evs = ["Delhi"; "Mumbai"] /\
    (2 <= count is_get evs)%nat.
Proof.
  destruct (proj2 (proj2 (fetch_retries_then_next_city
                            ExtractExample.cfg ExtractExample.net)))
    with (w := initial) as (evs & Ht & Hs).
  - intros city Hin.
    repeat (apply elem_of_cons in Hin as [->|Hin]); [..|inversion Hin];
      vm_compute; eauto.
  - exists evs. split; [exact Ht|].
    assert (Hreturns :
              (extract_air_quality ExtractExample.cfg ExtractExample.net
                 initial).1
              = inr ["data/raw/Mumbai_raw_20240101_000000.json"])
      by (vm_compute; reflexivity).
    rewrite Hreturns in Hs. apply Hs. vm_compute. discriminate.
Defined.

Example extract_example :
  let run := extract_air_quality ExtractExample.cfg ExtractExample.net initial in
  run.1 = inr ["data/raw/Mumbai_raw_20240101_000000.json"] /\
  count is_get (trace run.2) = 4%nat /\
  count is_failure (trace run.2) = 3%nat /\
  backoff_after_failure (trace run.2) = true.
Proof. vm_compute. repeat split. Qed.

End ExtractFacts.

(* ===================================================================== *)
(** ** Further properties: the classifiers *)
(* ===================================================================== *)

Section ClassifierOrder.

Local Open Scope f64_scope.

Ltac float_order_cases :=
  repeat (match goal with
          | |- context [(?a ?= ?a)%Z] => rewrite (Z.compare_refl a)
          | |- context [(?a ?= ?b)%Z] =>
              destruct (Z.compare_spec a b); try subst
          | |- context [Pos.compare_cont Eq ?a ?b] =>
              change (Pos.compare_cont Eq a b) with (Pos.compare a b)
          | |- context [(?a ?= ?a)%positive] => rewrite (Pos.compare_refl a)
          | |- context [(?a ?= ?b)%positive] =>
              destruct (Pos.compare_spec a b); try subst
          end; cbn; try easy; try lia).

Lemma leb_trans (x y z : float64) :
  (x <=? y) = true -> (y <=? z) = true -> (x <=? z) = true.
Proof.
  unfold leb, SFleb.
  destruct x as [[]|[]| |[] mx ex], y as [[]|[]| |[] my ey],
           z as [[]|[]| |[] mz ez]; cbn; try easy; float_order_cases.
Qed.

Lemma leb_notna_r (x y : float64) : (x <=? y) = true -> isna y = false.
Proof. destruct x, y; try reflexivity; discriminate. Qed.

(** Below a bound that the larger value meets. *)
Lemma leb_below (v w b : float64) :
  (v <=? w) = true -> (w <=? b) = true -> (v <=? b) = false -> False.
Proof. intros Hvw Hwb Hvb. rewrite (leb_trans _ _ _ Hvw Hwb) in Hvb. discriminate. Qed.

(** X1. [aqi_category] is monotone: of two PM2.5 values, neither missing,
    the larger one never gets a cleaner band. *)
Theorem aqi_category_monotone (v w : float64) :
  (v <=? w) = true ->
  exists i j,
    aqi_rank (aqi_category v) = Some i /\
    aqi_rank (aqi_category w) = Some j /\ (i <= j)%nat.
Proof.
  intros Hvw. unfold aqi_category.
  rewrite (leb_notna_l _ _ Hvw), (leb_notna_r _ _ Hvw).
  repeat match goal with
         | |- context [?a <=? ?b] => destruct (a <=? b) eqn:?
         end;
    try match goal with
        | H1 : (w <=? ?b) = true, H2 : (v <=? ?b) = false |- _ =>
            exfalso; exact (leb_below v w b Hvw H1 H2)
        end;
    eexists _, _; (split; [reflexivity|split; [reflexivity|lia]]).
Qed.

Lemma aqi_category_monotone_witness :
  exists i j,
    aqi_rank (aqi_category #60) = Some i /\
    aqi_rank (aqi_category #250) = Some j /\ (i <= j)%nat.
Proof. apply aqi_category_monotone. reflexivity. Defined.

(** X2. [classify_risk] is monotone: of two severities, neither missing,
    the larger one never gets a lower risk level. *)
Theorem classify_risk_monotone (s t : float64) :
  (s <=? t) = true ->
  exists i j,
    risk_rank (classify_risk s) = Some i /\
    risk_rank (classify_risk t) = Some j /\ (i <= j)%nat.
Proof.
  intros Hst. unfold classify_risk, gtb.
  assert (Hup : forall b : float64, (b <? s) = true -> (b <? t) = true)
    by (intros b Hb; exact (ltb_leb_trans _ _ _ Hb Hst)).
  destruct (#400 <? s) eqn:E4.
  { rewrite (Hup _ E4).
    eexists _, _; (split; [reflexivity|split; [reflexivity|lia]]). }
  destruct (#200 <? s) eqn:E2; [rewrite (Hup _ E2)|];
    repeat match goal with
           | |- context [?a <? ?b] => destruct (a <? b) eqn:?
           end;
    eexists _, _; (split; [reflexivity|split; [reflexivity|lia]]).
Qed.

Lemma classify_risk_monotone_witness :
  exists i j,
    risk_rank (classify_risk #150) = Some i /\
    risk_rank (classify_risk #544) = Some j /\ (i <= j)%nat.
Proof. apply classify_risk_monotone. reflexivity. Defined.

End ClassifierOrder.

(* ===================================================================== *)
(** ** Further properties: transform.py *)
(* ===================================================================== *)

Section TransformMore.

Context `{Pandas}.

Lemma zip_rows_lookup (c : string) (hourly : gmap string (list json_cell))
  (i : nat) (r : row json_cell json_cell) :
  zip_rows c hourly !! i = Some r ->
  city r = c /\
  series hourly "time" !! i = Some (time r) /\
  series hourly "pm10" !! i = Some (pm10 r) /\
  series hourly "pm2_5" !! i = Some (pm2_5 r) /\
  series hourly "carbon_monoxide" !! i = Some (carbon_monoxide r) /\
  series hourly "nitrogen_dioxide" !! i = Some (nitrogen_dioxide r) /\
  series hourly "sulphur_dioxide" !! i = Some (sulphur_dioxide r) /\
  series hourly "ozone" !! i = Some (ozone r) /\
  series hourly "uv_index" !! i = Some (uv_index r).
Proof.
  unfold zip_rows. rewrite list_lookup_fmap_Some.
  intros ([t [p10 [p25 [co [no2 [so2 [oz uv]]]]]]] & -> & Hz).
  repeat (apply lookup_zip_with_Some in Hz
            as (? & ? & [= <- <-] & ? & Hz)).
  cbn. auto 10.
Qed.

Lemma min8_zero (a b c d e f g h : nat) :
  a = 0%nat \/ b = 0%nat \/ c = 0%nat \/ d = 0%nat \/
  e = 0%nat \/ f = 0%nat \/ g = 0%nat \/ h = 0%nat ->
  Nat.min a (Nat.min b (Nat.min c (Nat.min d
    (Nat.min e (Nat.min f (Nat.min g h)))))) = 0%nat.
Proof. lia. Qed.

(** X3. The rows a payload file gives are its eight arrays zipped
    position by position: there are as many rows as the shortest array is
    long (none when an array is missing), and the i-th row holds the i-th
    element of each array, under the city of the file's name. *)
Theorem rows_zipped_by_position (file : raw_file)
  (hourly : gmap string (list json_cell)) :
  data file !! "hourly" = Some hourly ->
  let len key := length (series hourly key) in
  length (rows_of_file file) =
    Nat.min (len "time") (Nat.min (len "pm10") (Nat.min (len "pm2_5")
      (Nat.min (len "carbon_monoxide") (Nat.min (len "nitrogen_dioxide")
        (Nat.min (len "sulphur_dioxide")
          (Nat.min (len "ozone") (len "uv_index"))))))) /\
  (forall key, hourly !! key = None -> key ∈ hourly_keys ->
               rows_of_file file = []) /\
  (forall i r,
      rows_of_file file !! i = Some r ->
      city r = city_of (file_name file) /\
      series hourly "time" !! i = Some (time r) /\
      series hourly "pm10" !! i = Some (pm10 r) /\
      series hourly "pm2_5" !! i = Some (pm2_5 r) /\
      series hourly "carbon_monoxide" !! i = Some (carbon_monoxide r) /\
      series hourly "nitrogen_dioxide" !! i = Some (nitrogen_dioxide r) /\
      series hourly "sulphur_dioxide" !! i = Some (sulphur_dioxide r) /\
      series hourly "ozone" !! i = Some (ozone r) /\
      series hourly "uv_index" !! i = Some (uv_index r)).
Proof.
  intros Hh len. unfold rows_of_file. rewrite Hh.
  assert (Hlen : length (zip_rows (city_of (file_name file)) hourly) =
            Nat.min (len "time") (Nat.min (len "pm10") (Nat.min (len "pm2_5")
              (Nat.min (len "carbon_monoxide") (Nat.min (len "nitrogen_dioxide")
                (Nat.min (len "sulphur_dioxide")
                  (Nat.min (len "ozone") (len "uv_index")))))))).
  { unfold zip_rows. rewrite length_fmap, !length_zip_with. reflexivity. }
  split; [exact Hlen|]. split; [|apply zip_rows_lookup].
  intros key Hkey Hin. apply length_zero_iff_nil. rewrite Hlen.
  assert (Hz : len key = 0%nat) by (unfold len, series; now rewrite Hkey).
  apply min8_zero.
  apply list_elem_of_In in Hin. cbn [hourly_keys In] in Hin.
  repeat (destruct Hin as [Heq|Hin]); [..|contradiction];
    rewrite <- Heq in Hz; auto 10.
Qed.

Lemma rows_of_file_skipped (file : raw_file) :
  data file !! "hourly" = None -> rows_of_file file = [].
Proof. unfold rows_of_file. now intros ->. Qed.

(** X4. A file whose JSON has no "hourly" entry is passed over: with
    another file in the directory, the run is the same as without it. *)
Theorem file_without_hourly_is_skipped (file : raw_file)
  (before after : list raw_file) :
  data file !! "hourly" = None ->
  before ++ after <> [] ->
  transform_data (before ++ file :: after) = transform_data (before ++ after).
Proof.
  intros Hskip Hother. unfold transform_data.
  rewrite !bind_app, bind_cons, (rows_of_file_skipped _ Hskip). cbn [app].
  destruct (before ++ file :: after) eqn:E1;
    [now destruct before|].
  destruct (before ++ after) eqn:E2; [contradiction|]. reflexivity.
Qed.

Lemma no_rows_iff (raw_files : list raw_file) :
  raw_files ≫= rows_of_file = [] <->
  forall f, f ∈ raw_files -> rows_of_file f = [].
Proof.
  induction raw_files as [|f fs IH]; cbn.
  - split; [intros _ f Hf; inversion Hf|reflexivity].
  - rewrite app_nil, IH. split.
    + intros [Hf Hfs] g [->|Hg]%elem_of_cons; auto.
    + intros Hall. split; [apply Hall, list_elem_of_here|].
      intros g Hg. apply Hall, list_elem_of_further, Hg.
Qed.


Lemma transform_data_no_rows (raw_files : list raw_file) :
  raw_files <> [] ->
  (forall f, f ∈ raw_files -> rows_of_file f = []) ->
  transform_data raw_files = TransformRaised (KeyError "time").
Proof.
  intros Hne Hall%no_rows_iff. unfold transform_data.
  destruct raw_files; [contradiction|]. now rewrite Hall.
Qed.


(** A time column that pandas refuses: the run raises with rows in hand,
    and writes nothing. *)
Example refused_time_column :
  transform_data (H := refusing_pandas) [sample_file]
  = TransformRaised (Exception "ValueError" "Mixed timezones detected").
Proof. reflexivity. Qed.

Lemma dropna_all_sublist {T} (df : list (row T number)) :
  dropna_all df `sublist_of` df.
Proof.
  unfold dropna_all. induction df as [|r df IH]; cbn; [constructor|].
  destruct (negb _); now constructor.
Qed.

(** X6. What the staged dataset keeps: of the converted rows, in their
    order, exactly those with at least one of the seven numeric cells
    (the six pollutants and the UV index) present. *)
Theorem staged_rows_have_a_reading (raw_files : list raw_file) rows :
  transform_data raw_files = Staged rows ->
  let all_rows := raw_files ≫= rows_of_file in
  exists read_time,
    to_datetime (time <$> all_rows) = inr read_time /\
    let converted := convert all_rows read_time <$> all_rows in
    (observed <$> rows) `sublist_of` converted /\
    forall o,
      o ∈ observed <$> rows <->
      o ∈ converted /\ exists x, x ∈ num_cols o /\ isnull x = false.
Proof.
  intros Hrun all_rows.
  apply transform_data_staged in Hrun as (read_time & Hread & ->).
  exists read_time. split; [exact Hread|]. intros converted.
  fold all_rows. fold converted.
  assert (Hobs : observed <$> (engineer <$> dropna_all converted)
                 = dropna_all converted).
  { rewrite <- list_fmap_compose. apply list_fmap_id. }
  rewrite Hobs. split; [apply dropna_all_sublist|].
  intros o. apply dropna_all_spec.
Qed.

Lemma classify_risk_nan (s : float64) :
  isna s = true -> classify_risk s = "Low Risk".
Proof. destruct s; try discriminate. reflexivity. Qed.

(** X7. A staged row with one of the six pollutants missing is always
    "Low Risk", whatever its other readings are: its severity is missing
    and fails both comparisons of [classify_risk]. *)
Theorem missing_pollutant_is_low_risk (raw_files : list raw_file)
  rows r x :
  transform_data raw_files = Staged rows -> r ∈ rows ->
  x ∈ [pm2_5 (observed r); pm10 (observed r); nitrogen_dioxide (observed r);
       sulphur_dioxide (observed r); carbon_monoxide (observed r);
       ozone (observed r)] ->
  isnull x = true ->
  Risk_Level r = "Low Risk".
Proof.
  intros Hrun Hr Hx Hna.
  rewrite (staged_row_engineered _ _ _ Hrun Hr). cbn [Risk_Level engineer].
  pose proof (severity_of_isnull _ _ Hx Hna) as Hsev.
  destruct (severity_of (observed r)) as [n|s]; [discriminate|].
  now apply classify_risk_nan.
Qed.

Lemma wrap64_small (n : Z) : fits_int64 n = true -> wrap64 n = n.
Proof.
  unfold fits_int64, wrap64. intros [Hlo Hhi]%andb_true_iff.
  apply Z.leb_le in Hlo. apply Z.ltb_lt in Hhi.
  rewrite Z.mod_small; lia.
Qed.

Lemma wrap64_add (a b : Z) : wrap64 (wrap64 a + wrap64 b) = wrap64 (a + b).
Proof.
  unfold wrap64. f_equal.
  replace ((a + 2 ^ 63) mod 2 ^ 64 - 2 ^ 63
           + ((b + 2 ^ 63) mod 2 ^ 64 - 2 ^ 63) + 2 ^ 63)%Z
    with ((a + 2 ^ 63) mod 2 ^ 64 + ((b + 2 ^ 63) mod 2 ^ 64 - 2 ^ 63))%Z
    by lia.
  rewrite Z.add_mod_idemp_l by lia.
  replace (a + 2 ^ 63 + ((b + 2 ^ 63) mod 2 ^ 64 - 2 ^ 63))%Z
    with ((b + 2 ^ 63) mod 2 ^ 64 + a)%Z by lia.
  rewrite Z.add_mod_idemp_l by lia. f_equal. lia.
Qed.

(** The severity of six integer cells is the weighted sum, wrapped once. *)
Lemma severity_of_ints {T} (r : row T number) (n1 n2 n3 n4 n5 n6 : Z) :
  pollutants r = [Int n1; Int n2; Int n3; Int n4; Int n5; Int n6] ->
  severity_of r
  = Int (wrap64 (5 * n1 + 3 * n2 + 4 * n3 + 4 * n4 + 2 * n5 + 3 * n6)).
Proof.
  unfold pollutants, severity_of. intros [= -> -> -> -> -> ->].
  cbn [times plus]. f_equal.
  rewrite (wrap64_add (n1 * 5) (n2 * 3)), (wrap64_add _ (n3 * 4)),
    (wrap64_add _ (n4 * 4)), (wrap64_add _ (n5 * 2)), (wrap64_add _ (n6 * 3)).
  f_equal. lia.
Qed.

Lemma severity_of_floats {T} (r : row T number) (x1 x2 x3 x4 x5 x6 : float64) :
  pollutants r = [Float x1; Float x2; Float x3; Float x4; Float x5; Float x6] ->
  severity_of r
  = Float (#5 * x1 + #3 * x2 + #4 * x3 + #4 * x4 + #2 * x5 + #3 * x6)%f64.
Proof.
  unfold pollutants, severity_of. intros [= -> -> -> -> -> ->].
  cbn [times plus as_float].
  now rewrite (mul_comm x1), (mul_comm x2), (mul_comm x3), (mul_comm x4),
    (mul_comm x5), (mul_comm x6).
Qed.

(** The severity is an integer exactly when the six cells are. *)
Lemma severity_of_is_int {T} (r : row T number) :
  is_int (severity_of r) = forallb is_int (pollutants r).
Proof.
  unfold severity_of, pollutants.
  destruct (pm2_5 r), (pm10 r), (nitrogen_dioxide r), (sulphur_dioxide r),
    (carbon_monoxide r), (ozone r); reflexivity.
Qed.

(** A converted cell is an integer exactly when its column is [int64]. *)
Lemma to_numeric_is_int (column : list json_cell) (c : json_cell) :
  c ∈ column ->
  is_int (to_numeric column c) = forallb reads_int64 column.
Proof.
  intros Hc. unfold to_numeric.
  destruct (forallb reads_int64 column) eqn:E; [|reflexivity].
  rewrite forallb_forall in E. specialize (E c).
  rewrite <- list_elem_of_In in E. specialize (E Hc).
  unfold reads_int64 in E. now destruct (scalar c).
Qed.

Lemma reads_int64_in_range (column : list json_cell) :
  forallb in_int64_range column = true ->
  forallb reads_int64 column = forallb reads_integer column.
Proof.
  induction column as [|c column IH]; [reflexivity|]. cbn [forallb].
  intros [Hc Hcolumn]%andb_true_iff. rewrite (IH Hcolumn). f_equal.
  unfold reads_int64, reads_integer, in_int64_range in *.
  now destruct (scalar c).
Qed.

(** A test of the six pollutant cells of every row is a test of the six
    pollutant columns. *)
Lemma forallb_pollutants {N} (p : N -> bool) (df : list (row json_cell N)) :
  forallb (fun raw => forallb p (pollutants raw)) df
  = forallb p (pm2_5 <$> df) && forallb p (pm10 <$> df)
    && forallb p (nitrogen_dioxide <$> df)
    && forallb p (sulphur_dioxide <$> df)
    && forallb p (carbon_monoxide <$> df) && forallb p (ozone <$> df).
Proof.
  induction df as [|raw df IH]; [reflexivity|].
  cbn [forallb fmap list_fmap]. rewrite IH. unfold pollutants.
  cbn [forallb].
  destruct (p (pm2_5 raw)), (p (pm10 raw)), (p (nitrogen_dioxide raw)),
    (p (sulphur_dioxide raw)), (p (carbon_monoxide raw)), (p (ozone raw));
    cbn; rewrite ?andb_false_r; try reflexivity.
Qed.

(** X25. The severity of a staged row is the weighted sum of its own six
    pollutant cells, taken in the arithmetic of their columns.  When the
    integers of the payload fit 64 bits, it is an integer exactly when
    every pollutant cell of the frame reads as an integer.  On six float
    cells it is 5*pm2_5 + 3*pm10 + 4*nitrogen_dioxide + 4*sulphur_dioxide
    + 2*carbon_monoxide + 3*ozone in binary64; on six integer cells it is
    that sum wrapped to 64 bits, hence the sum itself when it fits.  A
    missing cell among the six makes it missing, never the sum with zero
    in its place; and the cells 60, 40, 10, 5, 2, 20 give 544. *)
Theorem severity_weighted_sum (raw_files : list raw_file) rows r :
  transform_data raw_files = Staged rows -> r ∈ rows ->
  let all_rows := raw_files ≫= rows_of_file in
  forallb (fun raw => forallb in_int64_range (pollutants raw)) all_rows = true ->
  let o := observed r in
  severity r =
    (pm2_5 o * 5 + pm10 o * 3 + nitrogen_dioxide o * 4 +
     sulphur_dioxide o * 4 + carbon_monoxide o * 2 + ozone o * 3)%number /\
  is_int (severity r)
  = forallb (fun raw => forallb reads_integer (pollutants raw)) all_rows /\
  (forall x1 x2 x3 x4 x5 x6,
      pollutants o
      = [Float x1; Float x2; Float x3; Float x4; Float x5; Float x6] ->
      severity r
      = Float (#5 * x1 + #3 * x2 + #4 * x3 + #4 * x4 + #2 * x5 + #3 * x6)%f64) /\
  (forall n1 n2 n3 n4 n5 n6,
      pollutants o = [Int n1; Int n2; Int n3; Int n4; Int n5; Int n6] ->
      let exact := 5 * n1 + 3 * n2 + 4 * n3 + 4 * n4 + 2 * n5 + 3 * n6 in
      severity r = Int (wrap64 exact) /\
      (fits_int64 exact = true -> severity r = Int exact)) /\
  (forall v, v ∈ pollutants o -> isnull v = true ->
             isnull (severity r) = true) /\
  (pollutants o
   = [Float #60%f64; Float #40%f64; Float #10%f64; Float #5%f64;
      Float #2%f64; Float #20%f64] ->
   severity r = Float #544%f64).
Proof.
  intros Hrun Hr all_rows Hrange o.
  assert (Hsev : severity r = severity_of o)
    by (rewrite (staged_row_engineered _ _ _ Hrun Hr) at 1; reflexivity).
  rewrite Hsev. split; [reflexivity|]. split.
  { apply transform_data_staged in Hrun as (read_time & _ & ->).
    apply list_elem_of_fmap in Hr as (c & -> & Hc).
    apply dropna_all_spec in Hc as [Hc _].
    apply list_elem_of_fmap in Hc as (raw & -> & Hraw).
    fold all_rows in Hraw |- *. subst o. cbn [observed engineer].
    rewrite severity_of_is_int. unfold pollutants at 1.
    cbn [convert pm2_5 pm10 nitrogen_dioxide sulphur_dioxide carbon_monoxide
           ozone forallb].
    rewrite !to_numeric_is_int by (apply list_elem_of_fmap; eauto).
    rewrite forallb_pollutants in Hrange.
    repeat (apply andb_true_iff in Hrange as [Hrange ?]).
    rewrite forallb_pollutants, !reads_int64_in_range by assumption.
    now rewrite andb_true_r, !andb_assoc. }
  split; [apply severity_of_floats|].
  split.
  { intros n1 n2 n3 n4 n5 n6 Hcells exact.
    rewrite (severity_of_ints _ _ _ _ _ _ _ Hcells). fold exact.
    split; [reflexivity|]. intros Hfits. now rewrite wrap64_small. }
  split; [apply severity_of_isnull|].
  intros Hcells. rewrite (severity_of_floats _ _ _ _ _ _ _ Hcells).
  vm_compute. reflexivity.
Qed.

End TransformMore.

(** The sample reading has severity 544, as floats and as integers. *)
Lemma severity_weighted_sum_witness :
  (exists r,
      transform_data (H := sample_pandas) [sample_file] = Staged [r] /\
      severity r = Float #544%f64) /\
  (exists r,
      transform_data (H := sample_pandas) [integer_file] = Staged [r] /\
      severity r = Int 544).
Proof.
  split; eexists; (split; [vm_compute; reflexivity|]).
  - refine (proj2 (proj2 (proj2 (proj2 (proj2
              (severity_weighted_sum (H := sample_pandas)
                 [sample_file] _ _ eq_refl _ _))))) _);
      first [ vm_compute; reflexivity | apply list_elem_of_here ].
  - refine (proj2 (proj1 (proj2 (proj2 (proj2
              (severity_weighted_sum (H := sample_pandas)
                 [integer_file] _ _ eq_refl _ _))))
              60 40 10 5 2 20 _) _);
      first [ vm_compute; reflexivity | apply list_elem_of_here ].
Defined.

Lemma rows_zipped_by_position_witness :
  length (rows_of_file ragged_file) = 2%nat.
Proof.
  destruct (rows_zipped_by_position ragged_file _ eq_refl) as [-> _].
  reflexivity.
Defined.

Lemma file_without_hourly_is_skipped_witness :
  transform_data (H := sample_pandas) [sample_file; no_hourly_file]
  = transform_data (H := sample_pandas) [sample_file].
Proof.
  apply (file_without_hourly_is_skipped (H := sample_pandas)
           no_hourly_file [sample_file] []); [reflexivity|discriminate].
Defined.

Lemma staged_rows_have_a_reading_witness :
  exists r,
    transform_data (H := sample_pandas) [uv_only_file] = Staged [r] /\
    exists x, x ∈ num_cols (observed r) /\ isnull x = false.
Proof.
  eexists. split; [vm_compute; reflexivity|].
  destruct (staged_rows_have_a_reading (H := sample_pandas) [uv_only_file]
              _ eq_refl) as (read_time & _ & _ & Hkept).
  refine (proj2 (proj1 (Hkept _) _)).
  apply list_elem_of_here.
Defined.

(** PM2.5 at 500 is "Hazardous"; without an ozone reading the row is
    "Low Risk" all the same. *)
Lemma missing_pollutant_is_low_risk_witness :
  exists r,
    transform_data (H := sample_pandas) [hazardous_no_ozone_file] = Staged [r] /\
    AQI_Category r = "Hazardous" /\ Risk_Level r = "Low Risk".
Proof.
  eexists. split; [vm_compute; reflexivity|]. split; [reflexivity|].
  eapply (missing_pollutant_is_low_risk (H := sample_pandas)
            [hazardous_no_ozone_file] _ _ (Float nan) eq_refl).
  - apply list_elem_of_here.
  - cbn. repeat first [apply list_elem_of_here | apply list_elem_of_further].
  - reflexivity.
Defined.

(* ===================================================================== *)
(** ** Further properties: extract.py *)
(* ===================================================================== *)

Module ExtractMoreFacts.

Import Extract ExtractFacts ExtractMore.

Section Run.

Variable cfg : config.
Variable net : network.

Lemma fetch_attempts_answer attempts url city w :
  (fetch_attempts cfg net attempts url city w).1
  = first_answer net url city (length attempts) (requests w).
Proof.
  revert w. induction attempts as [|attempt later IH]; intros w;
    [reflexivity|].
  rewrite fetch_attempts_cons. cbv zeta. cbn [length first_answer].
  destruct (outcome city (http net (requests w) url)); [reflexivity|].
  now rewrite IH.
Qed.

(** X8. What [fetch_with_retry] returns is the value of the first request,
    among at most [MAX_RETRIES] sent one after the other, that is answered
    with status 200 and a JSON body; when all of them fail it is [None]. *)
Theorem fetch_returns_first_answer url city w :
  (fetch_with_retry cfg net url city w).1
  = first_answer net url city (Z.to_nat (MAX_RETRIES cfg)) (requests w).
Proof.
  unfold fetch_with_retry. rewrite fetch_attempts_answer, range_length.
  do 2 f_equal. lia.
Qed.

(** X9. With [MAX_RETRIES] at zero or below, the fetcher sends no request:
    it prints that the fetch failed and returns [None]. *)
Theorem fetch_without_attempts url city w :
  MAX_RETRIES cfg <= 0 ->
  fetch_with_retry cfg net url city w =
  (None,
   {| requests := requests w; clock_reads := clock_reads w;
      trace := trace w ++ [FetchFailed city (MAX_RETRIES cfg)] |}).
Proof.
  intros Hmax. unfold fetch_with_retry, range.
  replace (Z.to_nat (MAX_RETRIES cfg + 1 - 1)) with 0%nat by lia.
  reflexivity.
Qed.

(** The events of one fetch: requests and their reports, no file. *)
Lemma fetch_attempts_events attempts url city w :
  let run := fetch_attempts cfg net attempts url city w in
  exists evs,
    trace run.2 = trace w ++ evs /\
    clock_reads run.2 = clock_reads w /\
    requests run.2 = (requests w + count is_get evs)%nat /\
    (count is_get evs <= length attempts)%nat /\
    saved_paths evs = [] /\ written_paths evs = [].
Proof.
  cbv zeta. revert w. induction attempts as [|attempt later IH]; intros w.
  - exists [FetchFailed city (MAX_RETRIES cfg)]. cbn. repeat split; lia.
  - rewrite fetch_attempts_cons. cbv zeta.
    destruct (outcome city (http net (requests w) url))
      as [document|report] eqn:E.
    + exists [Fetching city attempt (MAX_RETRIES cfg); Get url (TIMEOUT cfg)].
      cbn. repeat split; lia.
    + apply outcome_report in E as (Hfail & Hget).
      match goal with |- context [fetch_attempts _ _ later _ _ ?w'] =>
        destruct (IH w') as (evs & Ht & Hc & Hr & Hle & Hs & Hw)
      end.
      cbn [trace clock_reads requests] in Ht, Hc, Hr.
      exists (Fetching city attempt (MAX_RETRIES cfg) :: Get url (TIMEOUT cfg)
                :: report :: Sleep #1%f64 :: evs).
      split; [rewrite Ht, <- !app_assoc; reflexivity|].
      split; [assumption|].
      assert (Hg : count is_get
                     (Fetching city attempt (MAX_RETRIES cfg)
                        :: Get url (TIMEOUT cfg) :: report :: Sleep #1%f64 :: evs)
                   = S (count is_get evs)).
      { unfold count. cbn. rewrite Hget. reflexivity. }
      rewrite Hg, Hr. cbn [length].
      split; [lia|]. split; [lia|].
      unfold saved_paths, written_paths in *.
      destruct report; try discriminate Hfail; cbn; auto.
Qed.

Lemma fetch_with_retry_events url city w :
  let run := fetch_with_retry cfg net url city w in
  exists evs,
    trace run.2 = trace w ++ evs /\
    clock_reads run.2 = clock_reads w /\
    requests run.2 = (requests w + count is_get evs)%nat /\
    (count is_get evs <= Z.to_nat (MAX_RETRIES cfg))%nat /\
    saved_paths evs = [] /\ written_paths evs = [].
Proof.
  cbv zeta. unfold fetch_with_retry.
  destruct (fetch_attempts_events (range 1 (MAX_RETRIES cfg + 1)) url city w)
    as (evs & Ht & Hc & Hr & Hle & Hs & Hw).
  rewrite range_length in Hle.
  exists evs. repeat split; try assumption. lia.
Qed.

(** The loop over the cities, however it ends. *)
Lemma extract_cities_events cities saved0 w :
  let run := extract_cities cfg net cities saved0 w in
  exists evs,
    trace run.2 = trace w ++ evs /\
    requests run.2 = (requests w + count is_get evs)%nat /\
    (count is_get evs <= length cities * Z.to_nat (MAX_RETRIES cfg))%nat /\
    clock_reads run.2 = (clock_reads w + length (saved_paths evs))%nat /\
    written_paths evs = saved_paths evs /\
    Forall (fun p => exists city timestamp,
                city ∈ cities /\
                p = path_join (RAW_DIR cfg) (raw_name city timestamp))
      (saved_paths evs) /\
    (length (saved_paths evs) <= length cities)%nat /\
    (forall saved, run.1 = inr saved -> saved = saved0 ++ saved_paths evs).
Proof.
  cbv zeta. revert saved0 w.
  induction cities as [|city later IH]; intros saved0 w.
  - exists []. cbn. rewrite !app_nil_r. repeat split; try lia; try constructor.
    now intros saved [= <-].
  - destruct (CITY_COORDS cfg !! city) as [[lat lon]|] eqn:Hc.
    2:{ exists []. cbn [extract_cities]. rewrite Hc. cbn.
        rewrite !app_nil_r. repeat split; try lia; try constructor.
        intros saved [=]. }
    rewrite (extract_cities_cons _ _ _ _ _ _ _ _ Hc). cbv zeta.
    destruct (fetch_with_retry_events (build_url cfg lat lon) city w)
      as (evs & Ht & Hcl & Hr & Hle & Hs & Hw).
    destruct (fetch_with_retry _ _ _ _ _) as [[document|] w1];
      cbn [fst snd] in *.
    + set (path := path_join (RAW_DIR cfg)
                     (raw_name city (now net (clock_reads w1)))) in *.
      destruct (sleep_error net (SLEEP_BETWEEN cfg)) as [e|].
      { exists (evs ++ [WriteFile path document; Saved path;
                        Sleep (SLEEP_BETWEEN cfg)]).
        assert (Hsp : saved_paths
                        (evs ++ [WriteFile path document; Saved path;
                                 Sleep (SLEEP_BETWEEN cfg)]) = [path]).
        { unfold saved_paths in *. rewrite omap_app, Hs. reflexivity. }
        assert (Hwp : written_paths
                        (evs ++ [WriteFile path document; Saved path;
                                 Sleep (SLEEP_BETWEEN cfg)]) = [path]).
        { unfold written_paths in *. rewrite omap_app, Hw. reflexivity. }
        rewrite Hsp, Hwp, count_app. cbn [fst snd trace clock_reads requests length].
        split; [rewrite Ht, <- app_assoc; reflexivity|].
        split; [rewrite Hr; unfold count; cbn; lia|].
        split; [unfold count in *; cbn; lia|].
        split; [rewrite Hcl; lia|].
        split; [reflexivity|].
        split.
        { constructor; [|constructor].
          exists city, (now net (clock_reads w1)). split;
            [apply list_elem_of_here|reflexivity]. }
        split; [lia|]. intros saved [=]. }
      match goal with |- context [extract_cities _ _ later ?s ?w'] =>
        destruct (IH s w')
          as (evs' & Ht' & Hr' & Hle' & Hcl' & Hw' & Hp' & Hn' & Hres')
      end.
      cbn [trace clock_reads requests] in Ht', Hr', Hcl'.
      exists (evs ++ [WriteFile path document; Saved path;
                      Sleep (SLEEP_BETWEEN cfg)] ++ evs').
      assert (Hsp : saved_paths
                      (evs ++ [WriteFile path document; Saved path;
                               Sleep (SLEEP_BETWEEN cfg)] ++ evs')
                    = path :: saved_paths evs').
      { unfold saved_paths in *. rewrite !omap_app, Hs. reflexivity. }
      assert (Hwp : written_paths
                      (evs ++ [WriteFile path document; Saved path;
                               Sleep (SLEEP_BETWEEN cfg)] ++ evs')
                    = path :: written_paths evs').
      { unfold written_paths in *. rewrite !omap_app, Hw. reflexivity. }
      rewrite Hsp, Hwp, !count_app. cbn [length].
      split; [rewrite Ht', Ht, <- !app_assoc; reflexivity|].
      split; [rewrite Hr', Hr; unfold count; cbn; lia|].
      split; [unfold count in *; cbn; lia|].
      split; [rewrite Hcl', Hcl; lia|].
      split; [now rewrite Hw'|].
      split.
      { constructor.
        - exists city, (now net (clock_reads w1)). split;
            [apply list_elem_of_here|reflexivity].
        - eapply Forall_impl; [exact Hp'|].
          intros p (c & ts & Hin & ->). exists c, ts.
          split; [now apply list_elem_of_further|reflexivity]. }
      split; [lia|].
      intros saved Hsaved. rewrite (Hres' _ Hsaved), <- app_assoc. reflexivity.
    + destruct (IH saved0 w1)
        as (evs' & Ht' & Hr' & Hle' & Hcl' & Hw' & Hp' & Hn' & Hres').
      exists (evs ++ evs').
      assert (Hsp : saved_paths (evs ++ evs') = saved_paths evs').
      { unfold saved_paths in *. now rewrite omap_app, Hs. }
      assert (Hwp : written_paths (evs ++ evs') = written_paths evs').
      { unfold written_paths in *. now rewrite omap_app, Hw. }
      rewrite Hsp, Hwp, count_app. cbn [length].
      split; [rewrite Ht', Ht, <- !app_assoc; reflexivity|].
      split; [rewrite Hr', Hr; lia|].
      split; [lia|].
      split; [rewrite Hcl', Hcl; lia|].
      split; [assumption|].
      split.
      { eapply Forall_impl; [exact Hp'|].
        intros p (c & ts & Hin & ->). exists c, ts.
        split; [now apply list_elem_of_further|reflexivity]. }
      split; [lia|]. exact Hres'.
Qed.

Lemma extract_cities_app before rest saved0 w :
  (forall city, city ∈ before -> is_Some (CITY_COORDS cfg !! city)) ->
  extract_cities cfg net (before ++ rest) saved0 w =
  match (extract_cities cfg net before saved0 w).1 with
  | inr saved => extract_cities cfg net rest saved
                   (extract_cities cfg net before saved0 w).2
  | inl e => extract_cities cfg net before saved0 w
  end.
Proof.
  revert saved0 w. induction before as [|city later IH];
    intros saved0 w Hcoords; [reflexivity|].
  destruct (Hcoords city) as [[lat lon] Hc]; [apply list_elem_of_here|].
  assert (Hlater : forall c, c ∈ later -> is_Some (CITY_COORDS cfg !! c))
    by (intros c Hin; apply Hcoords, list_elem_of_further, Hin).
  rewrite <- app_comm_cons, !(extract_cities_cons _ _ _ _ _ _ _ _ Hc).
  cbv zeta.
  destruct (fetch_with_retry _ _ _ _ _).1; [|apply IH, Hlater].
  destruct (sleep_error net (SLEEP_BETWEEN cfg)); [reflexivity|].
  apply IH, Hlater.
Qed.

(** The loop over the cities when the sleep of line 94 is refused. *)
Lemma extract_cities_refused (e : exception) cities saved0 w :
  sleep_error net (SLEEP_BETWEEN cfg) = Some e ->
  let run := extract_cities cfg net cities saved0 w in
  exists evs,
    trace run.2 = trace w ++ evs /\
    (length (written_paths evs) <= 1)%nat /\
    (forall saved, run.1 = inr saved ->
                   saved = saved0 /\ written_paths evs = []) /\
    (length (written_paths evs) = 1%nat ->
     run.1 = inl e /\ last evs = Some (Sleep (SLEEP_BETWEEN cfg))).
Proof.
  intros Hsleep. cbv zeta. revert saved0 w.
  induction cities as [|city later IH]; intros saved0 w.
  - exists []. cbn. rewrite app_nil_r.
    split; [reflexivity|]. split; [lia|].
    split; [intros ? [= <-]; auto|discriminate].
  - destruct (CITY_COORDS cfg !! city) as [[lat lon]|] eqn:Hc.
    2:{ exists []. cbn [extract_cities]. rewrite Hc. cbn.
        rewrite app_nil_r. split; [reflexivity|]. split; [lia|].
        split; discriminate. }
    rewrite (extract_cities_cons _ _ _ _ _ _ _ _ Hc). cbv zeta.
    destruct (fetch_with_retry_events (build_url cfg lat lon) city w)
      as (evs & Ht & _ & _ & _ & _ & Hw).
    rewrite Hsleep.
    destruct (fetch_with_retry _ _ _ _ _) as [[document|] w1];
      cbn [fst snd] in *.
    + set (path := path_join (RAW_DIR cfg)
                     (raw_name city (now net (clock_reads w1)))).
      exists (evs ++ [WriteFile path document; Saved path;
                      Sleep (SLEEP_BETWEEN cfg)]).
      assert (Hwp : written_paths
                      (evs ++ [WriteFile path document; Saved path;
                               Sleep (SLEEP_BETWEEN cfg)]) = [path]).
      { unfold written_paths in *. rewrite omap_app, Hw. reflexivity. }
      rewrite Hwp. cbn [trace length].
      split; [rewrite Ht, <- app_assoc; reflexivity|].
      split; [lia|]. split; [discriminate|]. intros _.
      split; [reflexivity|]. now rewrite last_app.
    + destruct (IH saved0 w1) as (evs' & Ht' & Hle & Hres & Hone).
      exists (evs ++ evs').
      assert (Hwp : written_paths (evs ++ evs') = written_paths evs').
      { unfold written_paths in *. now rewrite omap_app, Hw. }
      rewrite Hwp.
      split; [rewrite Ht', Ht, <- app_assoc; reflexivity|].
      split; [exact Hle|]. split; [exact Hres|].
      intros [Hraised Hlast]%Hone. split; [exact Hraised|].
      now rewrite last_app, Hlast.
Qed.

End Run.

(** X10. A configured city without coordinates ends the extraction with
    [KeyError] on that city, in the very state the loop over the cities
    before it has left: nothing is printed, requested or written for that
    city or for any city after it, and the list of saved files is not
    returned.  (When [time.sleep] has refused [SLEEP_BETWEEN] after a file
    of an earlier city, the run has ended there.)  When the sleep is not
    refused, the cities before it have each had their first attempt and at
    least one request, and the run has sent at most [MAX_RETRIES] requests
    for each of them and none else. *)
Theorem extract_stops_at_unknown_city (cfg : config) (net : network)
  (before after : list string) (city : string) (w : world) :
  CITIES cfg = before ++ city :: after ->
  (forall c, c ∈ before -> is_Some (CITY_COORDS cfg !! c)) ->
  CITY_COORDS cfg !! city = None ->
  let processed := extract_cities cfg net before [] w in
  let run := extract_air_quality cfg net w in
  match processed.1 with
  | inr _ => run = (inl (KeyError city), processed.2)
  | inl _ => run = processed
  end /\
  (sleep_error net (SLEEP_BETWEEN cfg) = None ->
   run.1 = inl (KeyError city) /\
   exists evs,
     trace run.2 = trace w ++ evs /\
     requests run.2 = (requests w + count is_get evs)%nat /\
     (count is_get evs <= length before * Z.to_nat (MAX_RETRIES cfg))%nat /\
     (1 <= MAX_RETRIES cfg ->
      cities_started evs = before /\
      (length before <= count is_get evs)%nat)).
Proof.
  intros Hcities Hcoords Hnone processed run.
  assert (Hrun : run = match processed.1 with
                       | inr _ => (inl (KeyError city), processed.2)
                       | inl _ => processed
                       end).
  { subst run processed. unfold extract_air_quality.
    rewrite Hcities, (extract_cities_app _ _ _ _ _ _ Hcoords).
    destruct (extract_cities cfg net before [] w).1; [reflexivity|].
    cbn [extract_cities]. now rewrite Hnone. }
  split; [destruct processed.1; exact Hrun|].
  intros Hsleep.
  destruct (extract_cities_spec cfg net before [] w Hcoords)
    as (evs & Ht & Hres).
  destruct (extract_cities_events cfg net before [] w)
    as (evs' & Ht' & Hr & Hle & _).
  fold processed in Ht, Hres, Ht', Hr.
  rewrite Ht in Ht'. apply app_inv_head in Ht'. subst evs'.
  destruct processed.1 as [e|saved].
  { destruct Hres as [He _]. congruence. }
  rewrite Hrun. cbn [fst snd]. split; [reflexivity|].
  exists evs. auto.
Qed.

(** X11. When the extraction returns, the list it returns is the list of
    the files it has written, in the order written: one file at most per
    configured city, each named [RAW_DIR/<city>_raw_<timestamp>.json] for a
    configured city. *)
Theorem saved_files_are_the_written_ones (cfg : config) (net : network)
  (w : world) (saved : list string) :
  (extract_air_quality cfg net w).1 = inr saved ->
  exists evs,
    trace (extract_air_quality cfg net w).2 = trace w ++ evs /\
    saved = written_paths evs /\
    saved = saved_paths evs /\
    (length saved <= length (CITIES cfg))%nat /\
    Forall (fun p => exists city timestamp,
                city ∈ CITIES cfg /\
                p = path_join (RAW_DIR cfg) (raw_name city timestamp)) saved.
Proof.
  intros Hres. unfold extract_air_quality in *.
  destruct (extract_cities_events cfg net (CITIES cfg) [] w)
    as (evs & Ht & _ & _ & _ & Hw & Hp & Hn & Hsaved).
  specialize (Hsaved _ Hres). cbn [app] in Hsaved. subst saved.
  exists evs. rewrite Hw. auto.
Qed.

(** X12. However the extraction ends, it has sent at most [MAX_RETRIES]
    requests per configured city, and it has read the clock once for each
    file it has written. *)
Theorem extract_requests_bounded (cfg : config) (net : network) (w : world) :
  exists evs,
    trace (extract_air_quality cfg net w).2 = trace w ++ evs /\
    requests (extract_air_quality cfg net w).2
      = (requests w + count is_get evs)%nat /\
    (count is_get evs
       <= length (CITIES cfg) * Z.to_nat (MAX_RETRIES cfg))%nat /\
    clock_reads (extract_air_quality cfg net w).2
      = (clock_reads w + length (written_paths evs))%nat.
Proof.
  unfold extract_air_quality.
  destruct (extract_cities_events cfg net (CITIES cfg) [] w)
    as (evs & Ht & Hr & Hle & Hc & Hw & _).
  exists evs. rewrite Hw. auto.
Qed.

(** X26. A pause [SLEEP_BETWEEN] that is negative or NaN is refused by
    [time.sleep], whatever the platform: the extraction then writes one
    file at most, that of the first city whose fetch gave a document, and
    ends with the exception of the sleep right after it; it returns, with
    no file saved, only when no fetch gave a document. *)
Theorem refused_sleep_ends_the_run (cfg : config) (net : network) (w : world) :
  isna (SLEEP_BETWEEN cfg) || (SLEEP_BETWEEN cfg <? #0)%f64 = true ->
  let run := extract_air_quality cfg net w in
  exists e evs,
    sleep_error net (SLEEP_BETWEEN cfg) = Some e /\
    trace run.2 = trace w ++ evs /\
    (length (written_paths evs) <= 1)%nat /\
    (forall saved, run.1 = inr saved -> saved = [] /\ written_paths evs = []) /\
    (length (written_paths evs) = 1%nat ->
     run.1 = inl e /\ last evs = Some (Sleep (SLEEP_BETWEEN cfg))).
Proof.
  intros Hrefused run.
  assert (Hsleep : exists e, sleep_error net (SLEEP_BETWEEN cfg) = Some e).
  { unfold sleep_error. apply orb_true_iff in Hrefused as [Hnan|Hneg].
    - rewrite Hnan. eauto.
    - destruct (isna (SLEEP_BETWEEN cfg)); [eauto|].
      rewrite Hneg. destruct (too_long net _); eauto. }
  destruct Hsleep as [e Hsleep]. exists e.
  destruct (extract_cities_refused cfg net e (CITIES cfg) [] w Hsleep)
    as (evs & Ht & Hle & Hres & Hone).
  exists evs. auto.
Qed.

(** With a pause of -1 second, Delhi's file is written and the run ends
    with the [ValueError] of the sleep: Mumbai is never asked for. *)
Lemma refused_sleep_ends_the_run_witness :
  let run := extract_air_quality cfg_negative_sleep net_up initial in
  run.1 = inl (Exception "ValueError" "sleep length must be non-negative") /\
  written_paths (trace run.2) = ["data/raw/Delhi_raw_20240101_000000.json"].
Proof.
  destruct (refused_sleep_ends_the_run cfg_negative_sleep net_up initial
              eq_refl) as (e & evs & Hsleep & Ht & _ & _ & Hone).
  cbv zeta. change (trace initial ++ evs) with evs in Ht. rewrite Ht in *.
  assert (Hwritten : written_paths evs
                     = ["data/raw/Delhi_raw_20240101_000000.json"])
    by (rewrite <- Ht; vm_compute; reflexivity).
  split; [|exact Hwritten].
  destruct Hone as [Hraised _]; [now rewrite Hwritten|].
  rewrite Hraised. f_equal.
  assert (Hvalue : sleep_error net_up (SLEEP_BETWEEN cfg_negative_sleep)
                   = Some (Exception "ValueError"
                             "sleep length must be non-negative"))
    by (vm_compute; reflexivity).
  congruence.
Defined.

Lemma fetch_without_attempts_witness :
  fetch_with_retry cfg_no_retry ExtractExample.net "url" "Delhi" initial
  = (None,
     {| requests := 0; clock_reads := 0;
        trace := [FetchFailed "Delhi" 0] |}).
Proof.
  apply (fetch_without_attempts cfg_no_retry ExtractExample.net
           "url" "Delhi" initial).
  vm_compute. discriminate.
Defined.

(** Delhi is fetched and saved, Pune has no coordinates: the run raises
    and Mumbai is never asked for. *)
Lemma extract_stops_at_unknown_city_witness :
  (extract_air_quality cfg_unknown_city net_up initial).1
    = inl (KeyError "Pune") /\
  exists evs,
    trace (extract_air_quality cfg_unknown_city net_up initial).2 = evs /\
    cities_started evs = ["Delhi"] /\ (1 <= count is_get evs <= 3)%nat.
Proof.
  destruct (extract_stops_at_unknown_city cfg_unknown_city net_up
              ["Delhi"] ["Mumbai"] "Pune" initial)
    as (_ & Hrun).
  - reflexivity.
  - intros c Hin. apply list_elem_of_singleton in Hin as ->.
    vm_compute. eauto.
  - vm_compute. reflexivity.
  - destruct Hrun as (Hres & evs & Ht & _ & Hle & Hs);
      [vm_compute; reflexivity|].
    split; [exact Hres|]. exists evs. split; [exact Ht|].
    destruct Hs as [Hs Hge]; [vm_compute; discriminate|].
    split; [exact Hs|].
    change (length ["Delhi"]) with 1%nat in Hle, Hge.
    change (Z.to_nat (MAX_RETRIES cfg_unknown_city)) with 3%nat in Hle.
    split; [exact Hge|exact Hle].
Defined.

Lemma saved_files_are_the_written_ones_witness :
  exists evs,
    trace (extract_air_quality ExtractExample.cfg ExtractExample.net initial).2
      = evs /\
    written_paths evs = ["data/raw/Mumbai_raw_20240101_000000.json"].
Proof.
  destruct (saved_files_are_the_written_ones
              ExtractExample.cfg ExtractExample.net initial
              ["data/raw/Mumbai_raw_20240101_000000.json"])
    as (evs & Ht & Hw & _).
  - vm_compute. reflexivity.
  - exists evs. split; [exact Ht|]. now rewrite <- Hw.
Defined.

End ExtractMoreFacts.

(* ===================================================================== *)
(** ** Further properties: load.py *)
(* ===================================================================== *)

Module LoadMoreFacts.

Import Load LoadFacts LoadMore.
Local Open Scope nat_scope.

Lemma count_events_app {record} p (t t' : list (event record)) :
  count_events p (t ++ t') = count_events p t + count_events p t'.
Proof. unfold count_events. now rewrite List.filter_app, length_app. Qed.

(** A prefix of the starts is the starts of a prefix. *)
Lemma range_step_prefix (total : nat) (done rest : list nat) :
  range_step total batch_size = done ++ rest ->
  done = (fun i => i * batch_size) <$> seq 0 (length done) /\
  (forall start, head rest = Some start ->
                 start = length done * batch_size /\ start < total).
Proof.
  unfold range_step. intros Heq.
  set (n := (total + batch_size - 1) / batch_size) in *.
  assert (Hlen : length done + length rest = n).
  { rewrite <- length_app, <- Heq, length_fmap, length_seq. reflexivity. }
  assert (Hdone : done = (fun i => i * batch_size) <$> seq 0 (length done)).
  { transitivity (take (length done) (done ++ rest));
      [symmetry; apply take_app_length|].
    rewrite <- Heq, <- fmap_take, take_seq. do 2 f_equal. lia. }
  split; [exact Hdone|].
  intros start Hhead.
  assert (Hrest : rest = (fun i => i * batch_size)
                           <$> seq (length done) (n - length done)).
  { transitivity (drop (length done) (done ++ rest));
      [symmetry; apply drop_app_length|].
    rewrite <- Heq, <- fmap_drop, drop_seq. reflexivity. }
  destruct (n - length done) as [|m] eqn:Em;
    rewrite Hrest in Hhead; cbn in Hhead; [discriminate|].
  injection Hhead as <-. split; [reflexivity|].
  assert (Hn : length done < n) by lia.
  unfold n, batch_size in *.
  pose proof (Nat.div_mod_eq (total + 200 - 1) 200).
  pose proof (Nat.mod_upper_bound (total + 200 - 1) 200). lia.
Qed.


Section Run.

Context {record : Type}.
Variable insert_raises : nat -> option string.

Lemma upload_step (left attempts : nat) (batch : list record) start stop
  (w : world record) :
  upload insert_raises (S left) attempts batch start stop w =
  match insert_raises (calls w) with
  | None =>
      (true,
       {| calls := S (calls w); table := table w ++ batch;
          trace := trace w ++ [Insert start stop; Uploaded start stop] |})
  | Some e =>
      upload insert_raises left (attempts + 1) batch start stop
        {| calls := S (calls w); table := table w;
           trace := trace w ++
                    [Insert start stop; Retry (attempts + 1) start stop;
                     Error e; Sleep 2] |}
  end.
Proof.
  cbn [upload]. unfold bind, insert, emit, ret.
  destruct (insert_raises (calls w)); cbn [calls table trace];
    rewrite <- ?app_assoc; reflexivity.
Qed.

(** The retry loop of one batch, with its calls counted. *)
Lemma upload_run (left attempts : nat) (batch : list record) start stop
  (w : world record) :
  let run := upload insert_raises left attempts batch start stop w in
  exists evs,
    trace run.2 = trace w ++ evs /\
    calls run.2 = calls w + count_events is_insert evs /\
    count_events is_insert evs <= left /\
    count_events is_could_not evs = 0 /\
    table run.2 = table w ++ (if run.1 then batch else []) /\
    (run.1 = false <->
     forall j, j < left -> is_Some (insert_raises (calls w + j))) /\
    (run.1 = false -> count_events is_insert evs = left).
Proof.
  cbv zeta. revert attempts w. induction left as [|left IH]; intros attempts w.
  - exists []. cbn. rewrite !app_nil_r.
    repeat split; intros; first [reflexivity | lia].
  - rewrite upload_step.
    destruct (insert_raises (calls w)) as [e|] eqn:E.
    + match goal with |- context [upload _ left ?a _ _ _ ?w'] =>
        destruct (IH a w')
          as (evs & Ht & Hc & Hle & Hcn & Htab & Hiff & Hall)
      end.
      cbn [calls table trace] in Ht, Hc, Htab, Hiff.
      exists (Insert start stop :: Retry (attempts + 1) start stop
                :: Error e :: Sleep 2 :: evs).
      assert (Hi : count_events is_insert
                     (Insert start stop :: Retry (attempts + 1) start stop
                        :: Error e :: Sleep 2 :: evs)
                   = S (count_events is_insert evs)) by reflexivity.
      assert (Hn : count_events is_could_not
                     (Insert start stop :: Retry (attempts + 1) start stop
                        :: Error e :: Sleep 2 :: evs)
                   = count_events is_could_not evs) by reflexivity.
      rewrite Hi, Hn.
      split; [rewrite Ht, <- !app_assoc; reflexivity|].
      split; [rewrite Hc; lia|]. split; [lia|]. split; [assumption|].
      split; [assumption|]. split; [|intros Hf%Hall; lia].
      rewrite Hiff. split.
      * intros Hj [|j] Hlt; [rewrite Nat.add_0_r, E; eauto|].
        replace (calls w + S j) with (S (calls w) + j) by lia.
        apply Hj. lia.
      * intros Hj j Hlt.
        replace (S (calls w) + j) with (calls w + S j) by lia.
        apply Hj. lia.
    + exists [Insert start stop; Uploaded start stop]. cbn [fst snd calls table trace].
      split; [reflexivity|].
      split; [unfold count_events; cbn; lia|].
      split; [unfold count_events; cbn; lia|].
      split; [reflexivity|]. split; [reflexivity|].
      split; [|discriminate]. split; [discriminate|].
      intros Hj. specialize (Hj 0 ltac:(lia)).
      rewrite Nat.add_0_r, E in Hj. now destruct Hj.
Qed.

(** The loop over the batches: the starts it has done with, and where it
    stopped if it did. *)
Lemma upload_batches_run (starts : list nat) (rows : list record) total
  (w : world record) :
  let run := upload_batches insert_raises starts rows total w in
  exists done rest evs,
    starts = done ++ rest /\
    trace run.2 = trace w ++ evs /\
    calls run.2 = calls w + count_events is_insert evs /\
    count_events is_insert evs <= 3 * length starts /\
    table run.2 =
      table w ++
        (done ≫= fun start =>
           slice start (Nat.min (start + batch_size) total) rows) /\
    ((rest = [] /\ count_events is_could_not evs = 0) \/
     (exists start, head rest = Some start /\
        last evs = Some (CouldNot start (Nat.min (start + batch_size) total)) /\
        count_events is_could_not evs = 1)).
Proof.
  cbv zeta. revert w. induction starts as [|start later IH]; intros w.
  - exists [], [], []. cbn. rewrite !app_nil_r.
    repeat split; try lia. left. split; reflexivity.
  - rewrite upload_batches_cons. cbv zeta.
    set (stop := Nat.min (start + batch_size) total).
    set (batch := slice start stop rows).
    destruct (upload_run 3 0 batch start stop w)
      as (evs & Ht & Hc & Hle & Hcn & Htab & _ & _).
    destruct (upload insert_raises 3 0 batch start stop w) as [ok w1].
    cbn [fst snd] in *. destruct ok.
    + destruct (IH w1)
        as (done & rest & evs' & -> & Ht' & Hc' & Hle' & Htab' & Hcases).
      exists (start :: done), rest, (evs ++ evs').
      rewrite !count_events_app, Hcn. cbn [length].
      split; [reflexivity|].
      split; [rewrite Ht', Ht, <- app_assoc; reflexivity|].
      split; [lia|]. split; [lia|].
      split.
      { rewrite Htab', Htab. cbn [mbind list_bind]. fold batch.
        now rewrite <- app_assoc. }
      destruct Hcases as [[-> Hz]|(s & Hh & Hlast & Hone)].
      * left. split; [reflexivity|lia].
      * right. exists s. split; [assumption|].
        split; [rewrite last_app, Hlast; reflexivity|lia].
    + exists [], (start :: later), (evs ++ [CouldNot start stop]).
      unfold emit. cbn [fst snd calls table trace].
      rewrite !count_events_app, Hcn. cbn [length].
      split; [reflexivity|].
      split; [rewrite Ht, <- app_assoc; reflexivity|].
      split; [rewrite Hc; unfold count_events; cbn; lia|].
      split; [unfold count_events in *; cbn; lia|].
      split; [rewrite Htab; cbn; now rewrite app_nil_r|].
      right. exists start. split; [reflexivity|].
      split; [now rewrite last_snoc|reflexivity].
Qed.

(** A whole run, from any state of the table. *)
Lemma load_data_run (rows : list record) (w : world record) :
  let run := load_data insert_raises (Frame rows) w in
  exists evs k,
    run.1 = inr tt /\
    trace run.2 = trace w ++ Uploading (length rows) :: evs ++ [Completed] /\
    calls run.2 = calls w + count_events is_insert evs /\
    count_events is_insert evs <= 3 * ((length rows + 199) / 200) /\
    table run.2 = table w ++ take k rows /\
    ((k = length rows /\ count_events is_could_not evs = 0) \/
     (k < length rows /\ k mod batch_size = 0 /\
      last evs = Some (CouldNot k (Nat.min (k + batch_size) (length rows))) /\
      count_events is_could_not evs = 1)).
Proof.
  cbv zeta.
  destruct (upload_batches_run (range_step (length rows) batch_size) rows
              (length rows) (emit (Uploading (length rows)) w).2)
    as (done & rest & evs & Heq & Ht & Hc & Hle & Htab & Hcases).
  unfold load_data, bind. cbn [emit fst snd calls table trace] in *.
  destruct (upload_batches _ _ _ _ _) as [[] w1]. cbn [fst snd] in *.
  destruct (range_step_prefix _ _ _ Heq) as [Hdone Hhead].
  assert (Hcut : (done ≫= fun start =>
                    slice start (Nat.min (start + batch_size) (length rows)) rows)
                 = take (length done * batch_size) rows).
  { rewrite Hdone at 1. rewrite list_fmap_bind.
    apply (slices_cover rows batch_size). }
  assert (Hn : length (range_step (length rows) batch_size)
               = (length rows + 199) / 200).
  { unfold range_step, batch_size. rewrite length_fmap, length_seq.
    f_equal. lia. }
  rewrite Hn in Hle. rewrite Hcut in Htab.
  destruct Hcases as [[-> Hz]|(start & Hh & Hlast & Hone)].
  - exists evs, (length rows). cbn [emit fst snd trace].
    split; [reflexivity|].
    split; [rewrite Ht, <- !app_assoc; reflexivity|].
    split; [assumption|]. split; [assumption|]. split; [|left; auto].
    rewrite Htab. f_equal. rewrite app_nil_r in Heq.
    rewrite <- Heq, Hn, take_ge; [now rewrite take_ge|].
    unfold batch_size.
    pose proof (Nat.div_mod_eq (length rows + 199) 200).
    pose proof (Nat.mod_upper_bound (length rows + 199) 200). lia.
  - destruct (Hhead _ Hh) as [-> Hlt].
    exists evs, (length done * batch_size). cbn [emit fst snd trace].
    split; [reflexivity|].
    split; [rewrite Ht, <- !app_assoc; reflexivity|].
    split; [assumption|]. split; [assumption|]. split; [assumption|].
    right. split; [assumption|]. split; [apply Nat.Div0.mod_mul|]. auto.
Qed.

End Run.

Lemma upload_batches_never_raises {record : Type} (starts : list nat)
  (rows : list record) total (w : world record) :
  table (upload_batches never_raises starts rows total w).2
  = table w ++
      (starts ≫= fun start =>
         slice start (Nat.min (start + batch_size) total) rows).
Proof.
  revert w. induction starts as [|start later IH]; intros w.
  - cbn. now rewrite app_nil_r.
  - rewrite upload_batches_cons. cbv zeta.
    rewrite (upload_step never_raises). cbn [never_raises fst snd].
    rewrite IH. cbn [table mbind list_bind]. now rewrite <- app_assoc.
Qed.

(** X14. Whatever the store does, the rows a load run adds to the table
    are a prefix of the staged rows, each once and in order: all of them
    when no batch was given up; otherwise the rows before the batch that
    was given up, whose start is a multiple of 200 and is the last thing
    reported before the final line. *)
Theorem uploaded_rows_are_a_prefix {record : Type}
  (insert_raises : nat -> option string) (rows : list record)
  (w : world record) :
  let run := load_data insert_raises (Frame rows) w in
  exists evs k,
    trace run.2 = trace w ++ Uploading (length rows) :: evs ++ [Completed] /\
    table run.2 = table w ++ take k rows /\
    ((k = length rows /\ count_events is_could_not evs = 0) \/
     (k < length rows /\ k mod batch_size = 0 /\
      last evs = Some (CouldNot k (Nat.min (k + batch_size) (length rows))) /\
      count_events is_could_not evs = 1)).
Proof.
  cbv zeta.
  destruct (load_data_run insert_raises rows w)
    as (evs & k & _ & Ht & _ & _ & Htab & Hcases).
  exists evs, k. auto.
Qed.

(** X15. A load run calls the store's insert at most three times per
    batch, hence at most [3 * ceil(total / 200)] times in all. *)
Theorem insert_calls_bounded {record : Type}
  (insert_raises : nat -> option string) (rows : list record)
  (w : world record) :
  let run := load_data insert_raises (Frame rows) w in
  exists evs,
    trace run.2 = trace w ++ Uploading (length rows) :: evs ++ [Completed] /\
    calls run.2 = calls w + count_events is_insert evs /\
    count_events is_insert evs <= 3 * ((length rows + 199) / 200).
Proof.
  cbv zeta.
  destruct (load_data_run insert_raises rows w)
    as (evs & k & _ & Ht & Hc & Hle & _).
  exists evs. auto.
Qed.

(** X16. The retry loop gives a batch up exactly when the next three
    insert calls all raise; otherwise the rows of the batch are added to
    the table once, and in both cases no more than three calls are made. *)
Theorem batch_given_up_after_three_failures {record : Type}
  (insert_raises : nat -> option string) (batch : list record)
  (start stop : nat) (w : world record) :
  let run := upload insert_raises 3 0 batch start stop w in
  (run.1 = false <->
   forall j, j < 3 -> is_Some (insert_raises (calls w + j))) /\
  table run.2 = table w ++ (if run.1 then batch else []) /\
  calls w < calls run.2 <= calls w + 3.
Proof.
  cbv zeta.
  destruct (upload_run insert_raises 3 0 batch start stop w)
    as (evs & _ & Hc & Hle & _ & Htab & Hiff & Hall).
  split; [exact Hiff|]. split; [exact Htab|].
  rewrite Hc. split; [|lia].
  rewrite upload_step in Hc.
  destruct (insert_raises (calls w)); [|cbn in Hc; lia].
  rewrite upload_step in Hc.
  destruct (insert_raises _); [|cbn in Hc; lia].
  rewrite upload_step in Hc.
  destruct (insert_raises _); cbn in Hc; lia.
Qed.

(** X17. With a store that accepts every insert, a load run adds every
    staged row to what the table holds; loading the same staged file a
    second time stores every row a second time. *)
Theorem reload_duplicates_rows {record : Type} (rows : list record)
  (w : world record) :
  table (load_data never_raises (Frame rows) w).2 = table w ++ rows /\
  table (load_data never_raises (Frame rows)
           (load_data never_raises (Frame rows) initial).2).2
  = rows ++ rows.
Proof.
  assert (Hrun : forall w0 : world record,
             table (load_data never_raises (Frame rows) w0).2
             = table w0 ++ rows).
  { intros w0. unfold load_data, bind, emit, ret.
    match goal with |- context [upload_batches ?f ?s ?r ?t ?w'] =>
      pose proof (upload_batches_never_raises s r t w') as Htab;
      destruct (upload_batches f s r t w') as [[] w2]
    end.
    cbn [fst snd table] in *. rewrite Htab, batches_cover. reflexivity. }
  split; [apply Hrun|]. now rewrite !Hrun.
Qed.

End LoadMoreFacts.

(* ===================================================================== *)
(** ** Further properties: run_pipeline.py *)
(* ===================================================================== *)

Module PipelineMoreFacts.

Import Pipeline PipelineFacts PipelineMore.

Section Run.

Variable does : stage -> behaviour.
Variable clock : nat -> float64.
Variable round2 : float64 -> float64.

Ltac run_pipeline :=
  unfold main, and_then, bind, emit, ret; cbn [trace clock_reads initial];
  repeat (rewrite run_step_spec;
          match goal with
          | |- context [does ?s] =>
              let E := fresh "E" in destruct (does s) eqn:E
          end; cbn [trace clock_reads fst snd app]).

(** X18. When the four steps return, the run prints its banner, then for
    each step, in order, its start, and after the call its completion with
    the rounded difference of two consecutive readings of the clock, then
    the final lines; the clock is read eight times and [main] returns. *)
Theorem pipeline_success :
  (forall s, does s = Returns) ->
  main does clock round2 initial =
  (inr tt,
   {| clock_reads := 8;
      trace :=
        [Banner;
         Starting "Extract Step"; Call extract_air_quality;
         Completed "Extract Step" (round2 (clock 1%nat - clock 0%nat)%f64);
         Starting "Transform Step"; Call transform_data;
         Completed "Transform Step" (round2 (clock 3%nat - clock 2%nat)%f64);
         Starting "Load Step (Supabase)"; Call load_data;
         Completed "Load Step (Supabase)"
           (round2 (clock 5%nat - clock 4%nat)%f64);
         Starting "Analysis Step"; Call run_analysis;
         Completed "Analysis Step" (round2 (clock 7%nat - clock 6%nat)%f64);
         Finished] |}).
Proof.
  intros Hall.
  unfold main, and_then, bind, emit, ret. cbn [trace clock_reads initial].
  repeat (rewrite run_step_spec, Hall; cbn [trace clock_reads fst snd app]).
  reflexivity.
Qed.

(** X19. [main] returns, and prints its final lines, exactly when all four
    steps return. *)
Theorem pipeline_finishes_iff_all_return :
  let run := main does clock round2 initial in
  (run.1 = inr tt <-> forall s, does s = Returns) /\
  (Finished ∈ trace run.2 <-> forall s, does s = Returns).
Proof.
  cbv zeta.
  assert (Hall : (forall s, does s = Returns) <->
                 does extract_air_quality = Returns /\
                 does transform_data = Returns /\
                 does load_data = Returns /\ does run_analysis = Returns).
  { split; [auto|]. intros (? & ? & ? & ?) []; assumption. }
  rewrite Hall. split.
  - run_pipeline; split; try discriminate; try (intros _; tauto);
      intros (? & ? & ? & ?); congruence.
  - run_pipeline; (split; [|intros (? & ? & ? & ?); try congruence]);
      rewrite ?elem_of_cons, ?elem_of_nil;
      first [ intros _; tauto
            | intros ?; exfalso; intuition discriminate
            | intros; repeat first [left; reflexivity | right] ].
Qed.

(** X20. When the step that ends the run raises something that is no
    [Exception] ([SystemExit], [KeyboardInterrupt]), [run_step] does not
    catch it: the last thing the run did is the call of that step, nothing
    is printed about the error, and the exception leaves [main] as it is. *)
Theorem base_exception_is_not_caught (s : stage) (e : exception) :
  let run := main does clock round2 initial in
  s ∈ called (trace run.2) -> does s = RaisesBase e ->
  run.1 = inl (Uncaught e) /\
  last (trace run.2) = Some (Call s) /\
  List.filter is_error_report (trace run.2) = [].
Proof.
  cbv zeta. run_pipeline; cbn; intros Hs Hd;
    repeat (apply elem_of_cons in Hs as [->|Hs]);
    try (inversion Hs; fail);
    try congruence;
    (split; [congruence|split; reflexivity]).
Qed.

(** X21. The clock is read once before each call of a step and once more
    after each step that returns, never otherwise. *)
Theorem clock_read_around_steps :
  let run := main does clock round2 initial in
  clock_reads run.2
  = (length (called (trace run.2)) + length (timed (trace run.2)))%nat.
Proof. cbv zeta. run_pipeline; reflexivity. Qed.

End Run.

Lemma pipeline_success_witness :
  (main all_return (fun n => #(Z.of_nat n)%f64) id initial).1 = inr tt.
Proof.
  now rewrite (pipeline_success all_return (fun n => #(Z.of_nat n)%f64) id).
Defined.

(** The load step is interrupted: extract and transform have completed,
    nothing is printed for load, the analysis is not called. *)
Lemma base_exception_is_not_caught_witness :
  let run := main load_interrupted (fun n => #(Z.of_nat n)%f64) id initial in
  run.1 = inl (Uncaught (Exception "KeyboardInterrupt" "")) /\
  called (trace run.2) = [extract_air_quality; transform_data; load_data].
Proof.
  split; [|reflexivity].
  refine (proj1 (base_exception_is_not_caught load_interrupted
                   (fun n => #(Z.of_nat n)%f64) id load_data _ _ eq_refl)).
  vm_compute. repeat first [apply list_elem_of_here | apply list_elem_of_further].
Defined.

End PipelineMoreFacts.

(* ===================================================================== *)
(** ** Further properties: etl_analysis.py *)
(* ===================================================================== *)

Module AnalysisMoreFacts.

Import Analysis.

Section Run.

Context {record datetime : Type}.
Variable keys : record -> list string.
Variable to_frame : list record -> exception + list record.
Variable compute_kpis : list record -> exception + (kpi_summary * list risk_row).
Variable export_trends : list record -> exception + list (trend_row datetime).
Variable make_plots : list record -> option exception.

(** X22. The analysis saves its three tables together or not at all: a
    run leaves either no table, or exactly one summary, one risk
    distribution and one trend table, those computed from the rows read
    back.  It has made the plots only after saving the three, and a failed
    query reaches the caller as a [RuntimeError] with nothing saved. *)
Theorem tables_saved_together (q : query_result record) :
  let run := main keys to_frame compute_kpis export_trends make_plots q in
  ((summaries run.2 = [] /\ distributions run.2 = [] /\
    trend_tables run.2 = [] /\ SavePlots ∉ run.2)
   \/
   (exists df summary risk_dist trends,
       fetch_table_as_df to_frame q = inr df /\
       compute_kpis df = inr (summary, risk_dist) /\
       export_trends df = inr trends /\
       summaries run.2 = [summary] /\ distributions run.2 = [risk_dist] /\
       trend_tables run.2 = [trends])) /\
  (forall message,
      q = QueryRaises message ->
      run = (inl (Exception "RuntimeError"
                    ("Supabase query failed: " ++ message)%string), [])).
Proof.
  cbv zeta. split.
  - unfold main.
    destruct (fetch_table_as_df to_frame q) as [e|df] eqn:Ef;
      [left; repeat split; apply not_elem_of_nil|].
    destruct (empty keys df).
    { left. repeat split. cbn. intros Hin.
      apply list_elem_of_singleton in Hin. discriminate. }
    destruct (compute_kpis df) as [e|[summary risk_dist]] eqn:Ek;
      [left; repeat split; apply not_elem_of_nil|].
    destruct (export_trends df) as [e|trends] eqn:Et;
      [left; repeat split; apply not_elem_of_nil|].
    right. exists df, summary, risk_dist, trends.
    destruct (make_plots df); cbn; auto 10.
  - intros message ->. reflexivity.
Qed.

End Run.

End AnalysisMoreFacts.

Module TrendsFacts.

Import Trends.

Lemma compare_flip (a b : string) :
  String.compare a b = Gt -> String.compare b a = Lt.
Proof. rewrite String.compare_antisym. now destruct (String.compare b a). Qed.

Lemma compare_flip_eq (a b : string) :
  String.compare a b = Eq -> String.compare b a = Eq.
Proof. rewrite String.compare_antisym. now destruct (String.compare b a). Qed.

(** The order is total. *)
Lemma key_le_total (a b : reading) : key_le a b = false -> key_le b a = true.
Proof.
  unfold key_le.
  destruct (String.compare (city a) (city b)) eqn:E; try discriminate.
  - rewrite (compare_flip_eq _ _ E).
    destruct (time a), (time b); cbn; try discriminate; try reflexivity.
    intros Hlt. apply Z.leb_le. apply Z.leb_gt in Hlt. lia.
  - now rewrite (compare_flip _ _ E).
Qed.

Lemma insert_perm (r : reading) (l : list reading) : insert r l ≡ₚ r :: l.
Proof.
  induction l as [|x l IH]; cbn; [reflexivity|].
  destruct (key_le r x); [reflexivity|].
  rewrite IH. apply Permutation_swap.
Qed.

Lemma is_sorted_cons (x y : reading) (l : list reading) :
  is_sorted (x :: y :: l) = key_le x y && is_sorted (y :: l).
Proof. reflexivity. Qed.

Lemma insert_sorted (r : reading) (l : list reading) :
  is_sorted l = true -> is_sorted (insert r l) = true.
Proof.
  induction l as [|x l IH]; [reflexivity|]. intros Hs.
  cbn [insert]. destruct (key_le r x) eqn:E.
  - now rewrite is_sorted_cons, E, Hs.
  - apply key_le_total in E.
    destruct l as [|y l].
    + cbn [insert]. now rewrite is_sorted_cons, E.
    + rewrite is_sorted_cons in Hs. apply andb_true_iff in Hs as [Hxy Hs].
      specialize (IH Hs). cbn [insert] in IH |- *.
      destruct (key_le r y) eqn:E'.
      * now rewrite is_sorted_cons, E, IH.
      * now rewrite is_sorted_cons, Hxy, IH.
Qed.

Lemma sort_values_perm (l : list reading) : sort_values l ≡ₚ l.
Proof.
  induction l as [|r l IH]; cbn; [reflexivity|].
  now rewrite insert_perm, IH.
Qed.

Lemma sort_values_sorted (l : list reading) : is_sorted (sort_values l) = true.
Proof. induction l as [|r l IH]; [reflexivity|]. now apply insert_sorted. Qed.

(** X23. The trend table holds the rows read back whose time is present,
    each as often as it was read, and no other row; it is in ascending
    order of city, then time. *)
Theorem export_trends_sorted (df : list reading) :
  export_trends df ≡ₚ dropna_time df /\
  is_sorted (export_trends df) = true /\
  (forall r, r ∈ export_trends df <-> r ∈ df /\ is_Some (time r)).
Proof.
  unfold export_trends. split; [apply sort_values_perm|].
  split; [apply sort_values_sorted|].
  intros r. rewrite (sort_values_perm (dropna_time df)).
  unfold dropna_time. rewrite !list_elem_of_In, filter_In.
  apply and_iff_compat_l.
  destruct (time r); split; try discriminate; eauto.
  intros [? [=]].
Qed.

Example export_trends_example :
  (fun r => (city r, time r)) <$> export_trends sample_frame
  = [("Delhi", Some 3%Z); ("Delhi", Some 5%Z);
     ("Mumbai", Some 1%Z); ("Mumbai", Some 2%Z)].
Proof. reflexivity. Qed.

End TrendsFacts.

(* ===================================================================== *)
(** ** Further properties: the transform step in the pipeline *)
(* ===================================================================== *)

Section TransformInPipeline.

Context `{Pandas}.
Variable clock : nat -> float64.
Variable round2 : float64 -> float64.

(** X24. With no raw file, [transform_data] returns instead of raising, so
    the orchestrator reports the transform step as completed and goes on to
    the load and analysis steps; when there are files but none gives a
    row, the [KeyError] of the transform step stops the run before the
    load step. *)
Theorem transform_without_rows_in_pipeline (raw_files : list raw_file) :
  (forall f, f ∈ raw_files -> rows_of_file f = []) ->
  let run := Pipeline.main (with_transform raw_files) clock round2
               Pipeline.initial in
  match raw_files with
  | [] =>
      run.1 = inr tt /\
      Pipeline.called (Pipeline.trace run.2) = Pipeline.stages /\
      "Transform Step" ∈ Pipeline.timed (Pipeline.trace run.2)
  | _ =>
      run.1 = inl (Pipeline.SystemExit "⛔ Pipeline stopped at: Transform Step") /\
      Pipeline.called (Pipeline.trace run.2)
        = [Pipeline.extract_air_quality; Pipeline.transform_data] /\
      Pipeline.ErrorIn "Transform Step" (KeyError "time")
        ∈ Pipeline.trace run.2
  end.
Proof.
  intros Hempty.
  assert (Hstep : transform_step raw_files =
                  match raw_files with
                  | [] => Pipeline.Returns
                  | _ => Pipeline.Raises (KeyError "time")
                           "Traceback (most recent call last): ..."
                  end).
  { unfold transform_step.
    destruct raw_files as [|f fs]; [reflexivity|].
    now rewrite transform_data_no_rows. }
  cbv zeta.
  unfold Pipeline.main, Pipeline.and_then, bind, Pipeline.emit, ret.
  cbn [Pipeline.trace Pipeline.clock_reads Pipeline.initial].
  destruct raw_files;
    repeat (rewrite PipelineFacts.run_step_spec; cbn [with_transform];
            rewrite ?Hstep;
            cbn [Pipeline.trace Pipeline.clock_reads fst snd app]);
    cbn; repeat split;
    repeat first [apply list_elem_of_here | apply list_elem_of_further].
Qed.

End TransformInPipeline.

Lemma transform_without_rows_in_pipeline_witness :
  let run := Pipeline.main (with_transform (H := sample_pandas) [no_hourly_file])
               (fun n => #(Z.of_nat n)%f64) id Pipeline.initial in
  Pipeline.called (Pipeline.trace run.2)
  = [Pipeline.extract_air_quality; Pipeline.transform_data].
Proof.
  refine (proj1 (proj2 (transform_without_rows_in_pipeline
                          (H := sample_pandas) (fun n => #(Z.of_nat n)%f64) id
                          [no_hourly_file] _))).
  intros f Hf. apply list_elem_of_singleton in Hf as ->. reflexivity.
Defined.
